(** * lime-plotter: the marker search, the plot-spec builders and the
      column-resolution prologue of [frc1678/limeplotter/main.py]

    A shallow embedding of the pure core of [main.py].  Python values that
    the program stores in dictionaries are the inductive [pyval]; a Python
    [dict] with string keys is a [gmap string pyval]; exceptions are the
    [Raise] branch of [result]; the [while True] loop of [mark_xdata] runs
    on fuel and is proved to need only a bounded amount of it.

    Time stamps and samples are Python floats in the program.  Only the
    comparisons [<=], [<] and [>] are applied to them, and on finite
    floats these agree with the order of the rationals they denote, so
    they are modelled as [Q]. *)

From Stdlib Require Import ZArith QArith Lqa Lia Ascii String.
From stdpp Require Import base option list gmap strings fin_maps.

Set Warnings "-register-all".
#[local] Open Scope Z_scope.

(** ** Exceptions and results *)

Inductive exn : Type :=
  | IndexError
  | KeyError (key : string)
  | ValueError (msg : string)
  | TypeError
  | AttributeError
  | SystemExit (code : Z).

Inductive result (A : Type) : Type :=
  | Ok (a : A)
  | Raise (e : exn).

Arguments Ok {A} a.
Arguments Raise {A} e.

(** Sequencing: an exception raised by the first computation ends the
    whole.  This gives [result] stdpp's [x ← r; k] notation. *)
#[export] Instance result_bind : MBind result := λ A B k r,
  match r with
  | Ok a => k a
  | Raise e => Raise e
  end.

#[export] Instance result_ret : MRet result := λ A a, Ok a.

(** ** Python sequences *)

(** [l[i]] on a Python list: a negative index counts from the end, and an
    index outside [-len, len) raises [IndexError]. *)
Definition py_getitem {A : Type} (l : list A) (i : Z) : result A :=
  let n := Z.of_nat (length l) in
  let j := if i <? 0 then i + n else i in
  if (0 <=? j) && (j <? n)
  then match l !! Z.to_nat j with
       | Some a => Ok a
       | None => Raise IndexError
       end
  else Raise IndexError.

Definition Qlt_bool (a b : Q) : bool := negb (Qle_bool b a).

(** ** The self-correcting search of [mark_xdata] (lines 231-258) *)

Module MarkSearch.

(** What one turn of the [while True] body does: leave the loop with the
    index found, or go round again with a new index and jump distance. *)
Inductive turn : Type :=
  | Break (index : Z)
  | Again (index distance : Z).

(** The test of line 237, [t[index] <= x and x < t[index+1]]: Python's
    [and] does not read [t[index+1]] when the left conjunct is false. *)
Definition in_bracket (t : list Q) (x : Q) (index : Z) : result bool :=
  lo ← py_getitem t index;
  if Qle_bool lo x
  then hi ← py_getitem t (index + 1); Ok (Qlt_bool x hi)
  else Ok false.

(** Lines 247-251: [int(distance / 2)], raised to 1 when it reaches 0. *)
Definition halve (distance : Z) : Z :=
  let d := Z.quot distance 2 in
  if d =? 0 then 1 else d.

(** One turn of the loop body, lines 237-256. *)
Definition search_turn (t : list Q) (x : Q) (index distance : Z) : result turn :=
  found ← in_bracket t x index;
  if found : bool then Ok (Break index)
  else
    let distance := halve distance in
    hi ← py_getitem t (index + 1);
    if Qle_bool hi x
    then Ok (Again (index + distance) distance)
    else Ok (Again (index - distance) distance).

(** The loop.  [None] means that the fuel ran out before the loop left. *)
Fixpoint search_loop (fuel : nat) (t : list Q) (x : Q) (index distance : Z)
  : option (result Z) :=
  match fuel with
  | O => None
  | S fuel' =>
      match search_turn t x index distance with
      | Raise e => Some (Raise e)
      | Ok (Break i) => Some (Ok i)
      | Ok (Again index' distance') => search_loop fuel' t x index' distance'
      end
  end.

(** Lines 231-232: the search starts in the middle, with the same value as
    the first jump distance. *)
Definition start_index (t : list Q) : Z := Z.quot (Z.of_nat (length t)) 2.

Definition mark_xdata_search (fuel : nat) (t : list Q) (x : Q) : option (result Z) :=
  search_loop fuel t x (start_index t) (start_index t).

(** The words of the specification about the search, as predicates that
    compute. *)

(** Every sample is below the next one. *)
Fixpoint strictly_increasing (t : list Q) : bool :=
  match t with
  | a :: (b :: _) as rest => Qlt_bool a b && strictly_increasing rest
  | _ => true
  end.

(** [t[i] <= x < t[i+1]] *)
Definition brackets (t : list Q) (x : Q) (i : nat) : bool :=
  match t !! i, t !! S i with
  | Some lo, Some hi => Qle_bool lo x && Qlt_bool x hi
  | _, _ => false
  end.

(** [t[0] <= x < t[last]] *)
Definition within_range (t : list Q) (x : Q) : bool :=
  match head t, last t with
  | Some lo, Some hi => Qle_bool lo x && Qlt_bool x hi
  | _, _ => false
  end.

(** Two notions for the proof that the search converges. *)

(** What holds of the index and the jump distance at the head of every
    turn of a search in an array of [n] samples: the index and its right
    neighbour are inside the array, and while the distance is above 1 the
    jumps still to come cannot leave the array. *)
Definition search_inv (n : Z) (index distance : Z) : Prop :=
  0 <= index <= n - 2 ∧ 1 <= distance ∧
  (2 <= distance → distance <= index ∧ index + distance <= n).

(** The quantity that goes down on every turn of a search for the sample
    at position [k]. *)
Definition search_measure (k : nat) (index distance : Z) : Z :=
  2 * distance + Z.abs (index - Z.of_nat k).

End MarkSearch.

(** ** Python strings *)

(** Strings are sequences of bytes here and of code points in Python.  The
    only character the program looks for is the comma, whose byte never
    occurs inside a multi-byte UTF-8 sequence, so cutting at it gives the
    same pieces either way. *)

Fixpoint find_char (c : ascii) (s : string) : option nat :=
  match s with
  | EmptyString => None
  | String a s' => if Ascii.eqb a c then Some 0%nat else S <$> find_char c s'
  end.

(** [s.find(c)]: the first position of [c], or -1. *)
Definition py_find (s : string) (c : ascii) : Z :=
  match find_char c s with
  | Some n => Z.of_nat n
  | None => -1
  end.

(** [s.index(c)]: as [find], but a missing [c] raises [ValueError]. *)
Definition py_index (s : string) (c : ascii) : result Z :=
  match find_char c s with
  | Some n => Ok (Z.of_nat n)
  | None => Raise (ValueError "substring not found")
  end.

Fixpoint string_take (n : nat) (s : string) : string :=
  match n, s with
  | S n', String a s' => String a (string_take n' s')
  | _, _ => EmptyString
  end.

Fixpoint string_drop (n : nat) (s : string) : string :=
  match n, s with
  | S n', String _ s' => string_drop n' s'
  | _, _ => s
  end.

(** A slice bound [i] of a sequence of length [n]: negative bounds count
    from the end, and the result is clamped to [0, n]. *)
Definition slice_bound (n i : Z) : nat :=
  Z.to_nat (if i <? 0 then Z.max 0 (i + n) else Z.min i n).

(** [s[:i]] and [s[i:]]. *)
Definition py_slice_to (s : string) (i : Z) : string :=
  string_take (slice_bound (Z.of_nat (String.length s)) i) s.

Definition py_slice_from (s : string) (i : Z) : string :=
  string_drop (slice_bound (Z.of_nat (String.length s)) i) s.

(** ** Python values and dictionaries *)

(** The values the program keeps in its plot entries.  [PyAxis n] is the
    n-th axis returned by [plt.subplots]; [PyDataSource] is the loader
    object held in the global [data_source]. *)
Inductive pyval : Type :=
  | PyNone
  | PyBool (b : bool)
  | PyInt (z : Z)
  | PyFloat (q : Q)
  | PyStr (s : string)
  | PyList (l : list pyval)
  | PyDict (d : gmap string pyval)
  | PyAxis (n : nat)
  | PyDataSource.

(** A plot entry, and an entry of the YAML plot tree, is a [dict] with
    string keys. *)
Abbreviation dict := (gmap string pyval).

(** [d[k]] *)
Definition py_dict_get (d : dict) (k : string) : result pyval :=
  match d !! k with
  | Some v => Ok v
  | None => Raise (KeyError k)
  end.

(** Truth value of an object in a condition. *)
Definition py_truthy (v : pyval) : bool :=
  match v with
  | PyNone => false
  | PyBool b => b
  | PyInt z => negb (z =? 0)
  | PyFloat q => negb (Qeq_bool q 0)
  | PyStr s => negb (String.eqb s "")
  | PyList l => match l with [] => false | _ => true end
  | PyDict d => negb (bool_decide (dom d = (∅ : gset string)))
  | PyAxis _ | PyDataSource => true
  end.

Definition is_none (v : pyval) : bool :=
  match v with
  | PyNone => true
  | _ => false
  end.

(** ** The plot-spec builders *)

Module Builder.

(** *** [create_subplots_from_yaml] (lines 267-287) *)

(** Lines 275-286, one entry of the plot tree.  The tree comes from
    [yaml.load]; its entries are mappings. *)
Definition yaml_entry (entry : dict) : result dict :=
  let x := match entry !! "x" with
           | None => PyStr "timestamp"
           | Some v => v
           end in
  y ← py_dict_get entry "y";
  let table := match entry !! "table" with
               | Some v => v
               | None => PyNone
               end in
  Ok (<["x" := x]> (<["y" := y]> (<["table" := table]>
        (<["options" := PyDict entry]> ∅)))).

(** The inner loop, lines 274-286: the entries of one subplot in order. *)
Fixpoint yaml_subplot (entries : list dict) : result (list dict) :=
  match entries with
  | [] => Ok []
  | entry :: rest =>
      e ← yaml_entry entry;
      es ← yaml_subplot rest;
      Ok (e :: es)
  end.

(** [contents['plots']] is a mapping from subplot keys to lists of
    entries; a Python [dict] keeps its keys in insertion order and each
    key once, so it is the list of its items and [contents['plots'][key]]
    is the value paired with [key]. *)
Fixpoint create_subplots_from_yaml (plots : list (pyval * list dict))
  : result (list (list dict)) :=
  match plots with
  | [] => Ok []
  | (_, entries) :: rest =>
      subplot ← yaml_subplot entries;
      subplots ← create_subplots_from_yaml rest;
      Ok (subplot :: subplots)
  end.

(** *** [create_subplots_from_arguments] (lines 289-308) *)

(** [subplot.append(e)]: the variable [subplot] is always the list object
    that was last put into [subplots], so the append shows in the last
    element of [subplots]. *)
Definition append_current (e : dict) (subplots : list (list dict)) : list (list dict) :=
  alter (λ subplot, subplot ++ [e]) (length subplots - 1)%nat subplots.

(** The dictionary [{'x': x, 'y': y}] of lines 306-307. *)
Definition xy_entry (x y : string) : dict :=
  <["x" := PyStr x]> (<["y" := PyStr y]> ∅).

(** Lines 299-305: the x and y names of one pair token. *)
Definition split_pair (pair : string) : result (string * string) :=
  let comma_spot := py_find pair "," in
  if bool_decide (comma_spot ≠ -1)
  then
    i ← py_index pair ",";
    let x := py_slice_to pair i in
    j ← py_index pair ",";
    let y := py_slice_from pair (j + 1) in
    Ok (x, y)
  else Ok ("timestamp"%string, pair).

(** The loop of lines 293-307 from a given [subplots]; [token] is the
    loop variable [pair]. *)
Fixpoint arguments_loop (arguments : list string) (subplots : list (list dict))
  : result (list (list dict)) :=
  match arguments with
  | [] => Ok subplots
  | token :: rest =>
      if bool_decide (token = "/"%string)
      then arguments_loop rest (subplots ++ [[]])
      else
        xy ← split_pair token;
        arguments_loop rest (append_current (xy_entry xy.1 xy.2) subplots)
  end.

Definition create_subplots_from_arguments (arguments : list string)
  : result (list (list dict)) :=
  arguments_loop arguments [[]].

End Builder.

(** ** Markers: [mark_time], [mark_xdata] and the marker-column scan *)

Module Marker.

(** One value of the global [plot_pair_data]: the x, y and time arrays of
    a pair and the number of its axis. *)
Record pair_data : Type := {
  pd_x : list Q;
  pd_y : list Q;
  pd_t : list Q;
  pd_axis : nat
}.

(** The call [axis.scatter([x], [y], marker=marker, ...)] of line 226. *)
Record scatter : Type := {
  sc_axis : nat;
  sc_x : Q;
  sc_y : Q;
  sc_marker : string
}.

(** [mark_time] (lines 223-226): reads [x[index]] and [y[index]] and
    paints the marker. *)
Definition mark_time (pd : pair_data) (index : Z) (marker : string) : result scatter :=
  x ← py_getitem (pd_x pd) index;
  y ← py_getitem (pd_y pd) index;
  Ok {| sc_axis := pd_axis pd; sc_x := x; sc_y := y; sc_marker := marker |}.

(** [mark_xdata] (lines 228-258): for every pair of [plot_pair_data], in
    insertion order, search its time array for [x] and mark the index
    found.  The result is the list of markers painted and how the call
    ended; [None] when a search ran out of fuel. *)
Fixpoint mark_xdata (fuel : nat) (plot_pair_data : list (string * pair_data))
    (x : Q) (marker : string) : option (list scatter * result ()) :=
  match plot_pair_data with
  | [] => Some ([], Ok ())
  | (_, pd) :: rest =>
      match MarkSearch.mark_xdata_search fuel (pd_t pd) x with
      | None => None
      | Some (Raise e) => Some ([], Raise e)
      | Some (Ok index) =>
          match mark_time pd index marker with
          | Raise e => Some ([], Raise e)
          | Ok m =>
              match mark_xdata fuel rest x marker with
              | None => None
              | Some (ms, r) => Some (m :: ms, r)
              end
          end
      end
  end.

(** [plot_pair_data[column]] *)
Fixpoint pair_data_get (plot_pair_data : list (string * pair_data)) (column : string)
  : result pair_data :=
  match plot_pair_data with
  | [] => Raise (KeyError column)
  | (k, pd) :: rest => if bool_decide (k = column) then Ok pd else pair_data_get rest column
  end.

(** The state of the scan of lines 513-519: the flag [is_low], and the
    loop indices [i] at which [mark_xdata] has been called so far. *)
Record scan_state : Type := {
  is_low : bool;
  crossings : list nat
}.

Section Scan.
(** What the call [mark_xdata(x, marker=marker)] of line 516 does with
    the x value it is given: return, or raise. *)
Variable mark_xdata_call : Q → result ().

Variables (xs ys : list Q) (rising_threshold : Q).

(** Lines 515-519, one turn for loop index [i].  [is_low and ...] reads
    [y[i]] only when [is_low] holds; the [elif] reads it again. *)
Definition scan_turn (st : scan_state) (i : nat) : result scan_state :=
  rising ← (if is_low st
            then yi ← py_getitem ys (Z.of_nat i); Ok (Qlt_bool rising_threshold yi)
            else Ok false);
  if rising : bool
  then
    xi ← py_getitem xs (Z.of_nat i);
    _ ← mark_xdata_call xi;
    Ok {| is_low := false; crossings := crossings st ++ [i] |}
  else
    yi ← py_getitem ys (Z.of_nat i);
    if Qlt_bool yi rising_threshold
    then Ok {| is_low := true; crossings := crossings st |}
    else Ok st.

Fixpoint scan_loop (indices : list nat) (st : scan_state) : result scan_state :=
  match indices with
  | [] => Ok st
  | i :: rest => st' ← scan_turn st i; scan_loop rest st'
  end.

(** Lines 513-519: [is_low = True], then [for i in range(0, len(y))]. *)
Definition scan : result scan_state :=
  scan_loop (seq 0 (length ys)) {| is_low := true; crossings := [] |}.
End Scan.

(** The scan for one marker column of [plot_pair_data]. *)
Definition marker_scan (mark_xdata_call : Q → result ())
    (plot_pair_data : list (string * pair_data)) (column : string)
    (rising_threshold : Q) : result (list nat) :=
  pd ← pair_data_get plot_pair_data column;
  st ← scan mark_xdata_call (pd_x pd) (pd_y pd) rising_threshold;
  Ok (crossings st).

(** The rising-edge rule in the words of the specification, as a second
    definition to compare the scan with: the flag before sample [k], and
    whether sample [k] is a crossing. *)
Fixpoint below_before (ys : list Q) (threshold : Q) (k : nat) : bool :=
  match k with
  | O => true
  | S k' =>
      match ys !! k' with
      | None => below_before ys threshold k'
      | Some y =>
          if below_before ys threshold k' && Qlt_bool threshold y then false
          else if Qlt_bool y threshold then true
          else below_before ys threshold k'
      end
  end.

Definition is_crossing (ys : list Q) (threshold : Q) (k : nat) : bool :=
  match ys !! k with
  | Some y => below_before ys threshold k && Qlt_bool threshold y
  | None => false
  end.

Definition detect_crossings (ys : list Q) (threshold : Q) : list nat :=
  filter (λ k, is_crossing ys threshold k = true) (seq 0 (length ys)).

End Marker.

(** ** [main] up to the first gather (lines 313-402) *)

Module Main.

(** The loader object: the column lookup and gather interface that
    [LogLoader] and [NetworkTablesLoader] offer to [main].  A lookup that
    finds nothing returns [PyNone]. *)
Record data_source : Type := {
  find_column_identifier : string → pyval;
  find_column_timestamp_identifier : string → pyval;
  gather : pyval → pyval → bool → pyval;
  dataframes : list (string * list string)
}.

(** The collaborators outside this file: the two loaders and
    [plt.subplots].  Each may raise. *)
Record world : Type := {
  log_loader : Z → list string → result data_source;
  network_tables_loader : string → list (list dict) → result data_source;
  plt_subplots : nat → result ()
}.

(** The parsed command line, as far as lines 313-402 read it.
    [yaml_plots] is what [yaml.load(args.yaml_plot)['plots']] evaluates
    to, an exception when there is no such file or tree. *)
Record args : Type := {
  plot_pairs : option (list string);
  yaml_plots : result (list (pyval * list dict));
  output_file : option string;
  log_files : option (list string);
  network_server : option string;
  list_variables : bool;
  animation_frames : Z;
  animate : bool
}.

(** What [main] does to its collaborators, in order. *)
Inductive event : Type :=
  | UseAgg
  | OpenLogLoader (files : list string)
  | OpenNetworkTables (server : string)
  | WriteStderr (text : string)
  | PrintLine (line : string)
  | Subplots (nrows : nat)
  | FindColumn (name : string)
  | FindTimestamp (name : string)
  | SetAspectEqual (axis : nat)
  | SetTitle (axis : nat) (title : pyval).

(** A step of [main]: the events it caused and how it ended. *)
Definition prog (A : Type) : Type := list event * result A.

#[export] Instance prog_ret : MRet prog := λ A a, ([], Ok a).

#[export] Instance prog_bind : MBind prog := λ A B k m,
  match m with
  | (tr, Ok a) => let '(tr', r) := k a in (tr ++ tr', r)
  | (tr, Raise e) => (tr, Raise e)
  end.

Definition emit (e : event) : prog () := ([e], Ok ()).
Definition lift {A : Type} (r : result A) : prog A := ([], r).
Definition raise {A : Type} (e : exn) : prog A := ([], Raise e).

(** Lines 319-322. *)
Definition build_plots (a : args) : result (list (list dict)) :=
  match plot_pairs a with
  | Some (p :: ps) => Builder.create_subplots_from_arguments (p :: ps)
  | _ => contents ← yaml_plots a; Builder.create_subplots_from_yaml contents
  end.

Definition nonempty_string (o : option string) : option string :=
  match o with
  | Some s => if String.eqb s "" then None else Some s
  | None => None
  end.

(** Lines 327-337. *)
Definition open_data_source (w : world) (a : args) (plots : list (list dict))
  : prog data_source :=
  match log_files a with
  | Some (f :: fs) =>
      _ ← emit (OpenLogLoader (f :: fs));
      lift (log_loader w (animation_frames a) (f :: fs))
  | _ =>
      match nonempty_string (network_server a) with
      | Some server =>
          _ ← emit (OpenNetworkTables server);
          lift (network_tables_loader w server plots)
      | None =>
          _ ← emit (WriteStderr "either a log file list (-L) or a network server (-N) is needed");
          raise (SystemExit 1)
      end
  end.

(** Lines 341-347: print every table with its columns and [exit()]. *)
Definition print_variables (ds : data_source) : prog () :=
  let lines := flat_map (λ '(filename, columns),
                   PrintLine (filename ++ ":") ::
                   map (λ column, PrintLine ("  " ++ column)) columns)
                 (dataframes ds) in
  (lines, Raise (SystemExit 0)).

(** The two messages of lines 389 and 391. *)
Definition x_not_found (x y : string) : string :=
  "failed to find x data for " ++ x ++ " (with y of " ++ y ++ ") ".

Definition y_not_found (y : string) : string :=
  "failed to find y data for " ++ y.

(** [s] occurs in [msg]. *)
Definition mentions (s msg : string) : Prop :=
  ∃ before after : string, msg = (before ++ s ++ after)%string.

(** The rule of the specification for the x identifier of an entry: the
    time stamp companion of [y] when [x] is the word [timestamp], the
    column named [x] otherwise. *)
Definition x_identifier (ds : data_source) (x y : string) : pyval :=
  if bool_decide (x = "timestamp"%string)
  then find_column_timestamp_identifier ds y
  else find_column_identifier ds x.

(** The two lookups this takes, after the lookup of [y] that comes first. *)
Definition lookups (x y : string) : list event :=
  [FindColumn y;
   if bool_decide (x = "timestamp"%string) then FindTimestamp y else FindColumn x].

(** Lines 381-385: the two identifiers of an entry. *)
Definition find_identifiers (ds : data_source) (x y : string) : prog (pyval * pyval) :=
  _ ← emit (FindColumn y);
  let yident := find_column_identifier ds y in
  xident ← (if bool_decide (x = "timestamp"%string)
            then _ ← emit (FindTimestamp y);
                 mret (find_column_timestamp_identifier ds y)
            else _ ← emit (FindColumn x);
                 mret (find_column_identifier ds x));
  mret (xident, yident).

(** Lines 398-401.  Both builders store nothing but a [dict] under
    ['options']; for any other value the membership test is taken to
    raise. *)
Definition apply_options (axis : nat) (entry : dict) : prog () :=
  options ← lift (py_dict_get entry "options");
  match options with
  | PyDict o =>
      _ ← match o !! "fixedAspect" with
          | Some v => if py_truthy v then emit (SetAspectEqual axis) else mret ()
          | None => mret ()
          end;
      match o !! "title" with
      | Some title => emit (SetTitle axis title)
      | None => mret ()
      end
  | _ => raise TypeError
  end.

(** Lines 388-391: a missing identifier is fatal, the x identifier being
    looked at first. *)
Definition check_identifiers (x y : string) (xident yident : pyval) : prog () :=
  if is_none xident then raise (ValueError (x_not_found x y))
  else if is_none yident then raise (ValueError (y_not_found y))
  else mret ().

(** Lines 394-397: the four keys [main] adds to an entry. *)
Definition attach (xident yident : pyval) (axis_index : nat) (entry : dict) : dict :=
  <["data_source" := PyDataSource]>
    (<["axis" := PyAxis axis_index]>
       (<["yident" := yident]> (<["xident" := xident]> entry))).

(** Lines 379-402 for an entry with the names [x] and [y]. *)
Definition resolve_entry (ds : data_source) (axis_index : nat) (entry : dict)
    (x y : string) : prog dict :=
  ids ← find_identifiers ds x y;
  _ ← check_identifiers x y ids.1 ids.2;
  let entry := attach ids.1 ids.2 axis_index entry in
  _ ← apply_options axis_index entry;
  mret entry.

(** Lines 372-402, the body of the inner loop for one entry on axis
    number [axis_index]; the result is the entry as it is appended to
    [plot_info].  The string concatenation of line 377 is evaluated
    before [debug] is called, so names that are not strings raise. *)
Definition process_entry (ds : data_source) (axis_index : nat) (entry : dict)
  : prog dict :=
  x ← lift (py_dict_get entry "x");
  y ← lift (py_dict_get entry "y");
  match x, y with
  | PyStr x, PyStr y => resolve_entry ds axis_index entry x y
  | _, _ => raise TypeError
  end.

(** [for entry in subplot] *)
Fixpoint process_subplot (ds : data_source) (axis_index : nat) (subplot : list dict)
  : prog (list dict) :=
  match subplot with
  | [] => mret []
  | entry :: rest =>
      e ← process_entry ds axis_index entry;
      es ← process_subplot ds axis_index rest;
      mret (e :: es)
  end.

(** [for (axis_index, subplot) in enumerate(plots)], counting from
    [axis_index]; the result is [plot_info]. *)
Fixpoint process_plots (ds : data_source) (axis_index : nat) (plots : list (list dict))
  : prog (list dict) :=
  match plots with
  | [] => mret []
  | subplot :: rest =>
      es ← process_subplot ds axis_index subplot;
      es' ← process_plots ds (S axis_index) rest;
      mret (es ++ es')
  end.

(** [main] from line 313 to line 402.  When it returns, [main] goes on
    with [gather_new_data(plot_info, args.animate)] on line 406 and then
    with the plotting loop; when it raises, neither is reached. *)
Definition main_prepare (w : world) (a : args) : prog (data_source * list dict) :=
  _ ← match nonempty_string (output_file a) with
      | Some _ => emit UseAgg
      | None => mret ()
      end;
  plots ← lift (build_plots a);
  ds ← open_data_source w a plots;
  _ ← (if list_variables a then print_variables ds else mret ());
  _ ← emit (Subplots (length plots));
  _ ← lift (plt_subplots w (length plots));
  plot_info ← process_plots ds 0 plots;
  mret (ds, plot_info).

End Main.

(** ** [gather_new_data] (lines 166-171) on the object store *)

Module Gather.

(** The mutable objects [gather_new_data] can reach: plot entries, which
    are dictionaries, and lists of references to objects. *)
Inductive obj : Type :=
  | ODict (d : dict)
  | OList (l : list nat).

Abbreviation heap := (gmap nat obj).

Section Loop.
Variable ds : Main.data_source.
Variable animate : bool.

(** The right-hand side of line 169: the three subscripts and the call
    of the [gather] method, in evaluation order. *)
Definition gather_call (d : dict) : result pyval :=
  source ← py_dict_get d "data_source";
  match source with
  | PyDataSource =>
      xident ← py_dict_get d "xident";
      yident ← py_dict_get d "yident";
      Ok (Main.gather ds xident yident animate)
  | _ => Raise AttributeError
  end.

(** The loop body for the object at [plot_entry]: evaluate the call,
    then store its result under ['data'].  A list cannot be subscripted
    with a string. *)
Definition gather_entry (plot_entry : nat) (h : heap) : heap * result () :=
  match h !! plot_entry with
  | Some (ODict d) =>
      match gather_call d with
      | Ok data => (<[plot_entry := ODict (<["data" := data]> d)]> h, Ok ())
      | Raise e => (h, Raise e)
      end
  | _ => (h, Raise TypeError)
  end.

(** [for plot_entry in plot_info]: the iterator keeps a position [i] and
    reads the list object anew on every turn.  Iterating over a
    dictionary yields its keys, and a key, being a string, cannot be
    subscripted with ['data_source'].  [None] means that the fuel ran
    out. *)
Fixpoint gather_loop (fuel : nat) (plot_info : nat) (i : nat) (h : heap)
  : option (heap * result ()) :=
  match fuel with
  | O => None
  | S fuel' =>
      match h !! plot_info with
      | Some (OList l) =>
          match l !! i with
          | None => Some (h, Ok ())
          | Some plot_entry =>
              match gather_entry plot_entry h with
              | (h', Ok _) => gather_loop fuel' plot_info (S i) h'
              | (h', Raise e) => Some (h', Raise e)
              end
          end
      | Some (ODict d) =>
          if bool_decide (dom d = (∅ : gset string))
          then Some (h, Ok ())
          else Some (h, Raise TypeError)
      | None => Some (h, Raise TypeError)
      end
  end.

Definition gather_new_data (fuel : nat) (plot_info : nat) (h : heap)
  : option (heap * result ()) :=
  gather_loop fuel plot_info 0 h.
End Loop.

(** What may differ between the store [h] before and the store [h']
    after: the same objects exist, every list is as it was, and every
    dictionary has its old value under every key but ['data']. *)
Definition only_data_written (h h' : heap) : Prop :=
  ∀ loc : nat,
    match h !! loc with
    | Some (ODict d) =>
        ∃ d', h' !! loc = Some (ODict d') ∧
              ∀ key : string, key ≠ "data"%string → d' !! key = d !! key
    | Some (OList l) => h' !! loc = Some (OList l)
    | None => h' !! loc = None
    end.

(** The number of turns the loop over a list object takes, the last one
    finding the list exhausted. *)
Definition turns (plot_info : nat) (h : heap) : nat :=
  match h !! plot_info with
  | Some (OList l) => S (length l)
  | _ => 1
  end.

End Gather.

(** ** A sample session *)

(** A log with one table, used to run the definitions above on concrete
    input: every column is found except [missing], and every column has
    a time stamp companion except [orphan]. *)
Module Sample.

Definition ds : Main.data_source := {|
  Main.find_column_identifier := λ name,
    if bool_decide (name = "missing"%string) then PyNone
    else PyStr ("log.csv:" ++ name);
  Main.find_column_timestamp_identifier := λ name,
    if bool_decide (name = "orphan"%string) then PyNone
    else PyStr "log.csv:timestamp";
  Main.gather := λ xident yident _, PyList [xident; yident];
  Main.dataframes := [("log.csv"%string, ["timestamp"; "height"; "button1"]%string)]
|}.

Definition world : Main.world := {|
  Main.log_loader := λ _ _, Ok ds;
  Main.network_tables_loader := λ _ _, Ok ds;
  Main.plt_subplots := λ _, Ok ()
|}.

(** [-y tree -L log.csv] *)
Definition yaml_args (contents : list (pyval * list dict)) : Main.args := {|
  Main.plot_pairs := None;
  Main.yaml_plots := Ok contents;
  Main.output_file := None;
  Main.log_files := Some ["log.csv"%string];
  Main.network_server := None;
  Main.list_variables := false;
  Main.animation_frames := 1;
  Main.animate := false
|}.

(** [-p pairs -L log.csv] *)
Definition pair_args (pairs : list string) : Main.args := {|
  Main.plot_pairs := Some pairs;
  Main.yaml_plots := Raise AttributeError;
  Main.output_file := None;
  Main.log_files := Some ["log.csv"%string];
  Main.network_server := None;
  Main.list_variables := false;
  Main.animation_frames := 1;
  Main.animate := false
|}.

(** The entry that [create_subplots_from_yaml] builds from the tree entry
    [raw] with the names [x] and [y] and no table. *)
Definition built (x y : string) (raw : dict) : dict :=
  <["x" := PyStr x]> (<["y" := PyStr y]> (<["table" := PyNone]>
    (<["options" := PyDict raw]> ∅))).

End Sample.

(** ** The pause button (lines 210-221) *)

Module Pause.

(** The two calls [pause] makes on [anim.event_source]. *)
Inductive timer_call : Type :=
  | TimerStop
  | TimerStart.

(** The global [paused] and the attribute [pause_button.label]. *)
Record state : Type := {
  paused : bool;
  label : string
}.

(** Line 210 sets [paused = False]; the button is made with the label
    ['pause'] on line 553. *)
Definition initial : state := {| paused := false; label := "pause" |}.

(** [pause(event)]: the event is not looked at. *)
Definition pause (st : state) : timer_call * state :=
  if paused st
  then (TimerStop, {| paused := negb (paused st); label := "Pause" |})
  else (TimerStart, {| paused := negb (paused st); label := "Play" |}).

(** A row of clicks on the button: the calls made, in order, and the
    state left. *)
Fixpoint clicks (n : nat) (st : state) : list timer_call * state :=
  match n with
  | O => ([], st)
  | S n' =>
      let '(call, st') := pause st in
      let '(calls, st'') := clicks n' st' in
      (call :: calls, st'')
  end.

End Pause.

(** ** The marker columns of [main] (lines 500-520) *)

Module MarkerColumns.

(** [s.split(c)] for a one-character separator: the pieces between the
    separators, empty pieces included. *)
Fixpoint py_split (c : ascii) (s : string) : list string :=
  match s with
  | EmptyString => [EmptyString]
  | String a s' =>
      if Ascii.eqb a c then EmptyString :: py_split c s'
      else match py_split c s' with
           | piece :: pieces => String a piece :: pieces
           | [] => [String a EmptyString]
           end
  end.

Section Columns.
(** [float(s)] on a string: the number it denotes, or [ValueError]. *)
Variable py_float : string → result Q.

(** What [mark_xdata(x, marker=marker)] does, given the marker and x. *)
Variable mark_xdata_call : string → Q → result ().

(** Lines 502-511: column, rising threshold and marker of one
    specification. *)
Definition marker_spec (column_spec : string) : result (string * Q * string) :=
  let parts := py_split "," column_spec in
  column ← py_getitem parts 0;
  rising_threshold ← (if (1 <? length parts)%nat
                      then part ← py_getitem parts 1; py_float part
                      else Ok 0.5%Q);
  marker ← (if (2 <? length parts)%nat
            then py_getitem parts 2
            else Ok "x"%string);
  Ok (column, rising_threshold, marker).

(** Lines 501-520, the loop over the specifications; the result lists,
    for every specification, its column and the loop indices at which
    [mark_xdata] was called. *)
Fixpoint marker_columns_loop (plot_pair_data : list (string * Marker.pair_data))
    (marker_columns : list string) : result (list (string * list nat)) :=
  match marker_columns with
  | [] => Ok []
  | column_spec :: rest =>
      '(column, rising_threshold, marker) ← marker_spec column_spec;
      crossings ← Marker.marker_scan (mark_xdata_call marker) plot_pair_data
                    column rising_threshold;
      others ← marker_columns_loop plot_pair_data rest;
      Ok ((column, crossings) :: others)
  end.

(** Line 500: nothing happens without marker columns. *)
Definition main_markers (plot_pair_data : list (string * Marker.pair_data))
    (marker_columns : option (list string)) : result (list (string * list nat)) :=
  match marker_columns with
  | Some (column_spec :: rest) =>
      marker_columns_loop plot_pair_data (column_spec :: rest)
  | _ => Ok []
  end.
End Columns.

End MarkerColumns.

(** ** Notions for the further theorems *)

Module Extra.

(** A pair that [mark_xdata] can mark at [x] within [fuel] turns: its
    time array has three or more strictly increasing samples around [x],
    and its x and y arrays are as long as the time array. *)
Definition markable (fuel : nat) (x : Q) (pd : Marker.pair_data) : bool :=
  MarkSearch.strictly_increasing (Marker.pd_t pd) &&
  MarkSearch.within_range (Marker.pd_t pd) x &&
  (3 <=? length (Marker.pd_t pd))%nat &&
  (length (Marker.pd_t pd) <=? length (Marker.pd_x pd))%nat &&
  (length (Marker.pd_t pd) <=? length (Marker.pd_y pd))%nat &&
  (2 * length (Marker.pd_t pd) <? fuel)%nat.

(** The marker [m] sits on the sample of [pd] that brackets [x]. *)
Definition marks_bracket (x : Q) (marker : string) (pd : Marker.pair_data)
    (m : Marker.scatter) : Prop :=
  ∃ (i : nat) (xi yi : Q),
    MarkSearch.brackets (Marker.pd_t pd) x i = true ∧
    Marker.pd_x pd !! i = Some xi ∧ Marker.pd_y pd !! i = Some yi ∧
    m = {| Marker.sc_axis := Marker.pd_axis pd; Marker.sc_x := xi;
           Marker.sc_y := yi; Marker.sc_marker := marker |}.

(** The entry [e] is what [create_subplots_from_yaml] makes of the tree
    entry [raw]. *)
Definition built_from (raw e : dict) : Prop :=
  e !! "x" = Some (default (PyStr "timestamp") (raw !! "x")) ∧
  e !! "y" = raw !! "y" ∧ is_Some (raw !! "y") ∧
  e !! "table" = Some (default PyNone (raw !! "table")) ∧
  e !! "options" = Some (PyDict raw) ∧
  dom e = ({["x"; "y"; "table"; "options"]} : gset string).

(** The entries of [plots] in the order [main] visits them, each with the
    number of its subplot, counting from [axis_index]. *)
Fixpoint with_axis (axis_index : nat) (plots : list (list dict)) : list (nat * dict) :=
  match plots with
  | [] => []
  | subplot :: rest =>
      map (λ entry, (axis_index, entry)) subplot ++ with_axis (S axis_index) rest
  end.

(** The entry [e'] is the entry [e] of axis [axis] as [main] appends it
    to [plot_info]: both identifiers found, and the four keys added. *)
Definition resolved (ds : Main.data_source) (p : nat * dict) (e' : dict) : Prop :=
  ∃ x y : string,
    p.2 !! "x" = Some (PyStr x) ∧ p.2 !! "y" = Some (PyStr y) ∧
    Main.x_identifier ds x y ≠ PyNone ∧
    Main.find_column_identifier ds y ≠ PyNone ∧
    (∃ options, p.2 !! "options" = Some (PyDict options)) ∧
    e' = Main.attach (Main.x_identifier ds x y) (Main.find_column_identifier ds y)
           p.1 p.2.

(** The same, said key by key: [e'] holds the identifier of x under
    ['xident'], that of y under ['yident'], neither being [None], the
    axis of its subplot under ['axis'] and the loader under
    ['data_source']; under every other key it holds what the entry held,
    and it has these four keys and those of the entry. *)
Definition appended (ds : Main.data_source) (p : nat * dict) (e' : dict) : Prop :=
  ∃ (x y : string) (xident yident : pyval),
    p.2 !! "x" = Some (PyStr x) ∧ p.2 !! "y" = Some (PyStr y) ∧
    xident = (if bool_decide (x = "timestamp"%string)
              then Main.find_column_timestamp_identifier ds y
              else Main.find_column_identifier ds x) ∧
    yident = Main.find_column_identifier ds y ∧
    xident ≠ PyNone ∧ yident ≠ PyNone ∧
    (∃ options, p.2 !! "options" = Some (PyDict options)) ∧
    e' !! "xident" = Some xident ∧
    e' !! "yident" = Some yident ∧
    e' !! "axis" = Some (PyAxis p.1) ∧
    e' !! "data_source" = Some PyDataSource ∧
    (∀ key : string,
       key ≠ "xident"%string → key ≠ "yident"%string →
       key ≠ "axis"%string → key ≠ "data_source"%string →
       e' !! key = p.2 !! key) ∧
    dom e' = ({["xident"; "yident"; "axis"; "data_source"]} : gset string) ∪ dom p.2.

(** Line 406, [gather_new_data(plot_info, args.animate)]: the entries of
    [plot_info] are distinct dictionary objects, here at the places
    0, 1, ..., and the list object [plot_info] comes after them. *)
Definition store_of (plot_info : list dict) : Gather.heap :=
  <[length plot_info := Gather.OList (seq 0 (length plot_info))]>
    (map_seq 0 (Gather.ODict <$> plot_info)).

Definition main_gather (ds : Main.data_source) (animate : bool) (plot_info : list dict)
  : option (Gather.heap * result ()) :=
  Gather.gather_new_data ds animate (S (length plot_info)) (length plot_info)
    (store_of plot_info).

(** The dictionary at [loc] has its data gathered from its identifiers. *)
Definition gathered (ds : Main.data_source) (animate : bool) (h : Gather.heap)
    (loc : nat) : Prop :=
  ∃ (d : dict) (xident yident : pyval),
    h !! loc = Some (Gather.ODict d) ∧
    d !! "data_source" = Some PyDataSource ∧
    d !! "xident" = Some xident ∧ d !! "yident" = Some yident ∧
    d !! "data" = Some (Main.gather ds xident yident animate).

(** The dictionary at [loc] is ready for [gather_new_data]. *)
Definition gatherable (h : Gather.heap) (loc : nat) : Prop :=
  ∃ d : dict,
    h !! loc = Some (Gather.ODict d) ∧
    d !! "data_source" = Some PyDataSource ∧
    is_Some (d !! "xident") ∧ is_Some (d !! "yident").

End Extra.

(** * Theorems *)

(** ** The search of [mark_xdata] *)

Section SearchFacts.
Import MarkSearch.

Lemma Qlt_bool_iff (a b : Q) : Qlt_bool a b = true ↔ (a < b)%Q.
Proof.
  unfold Qlt_bool. rewrite negb_true_iff, <- not_true_iff_false, Qle_bool_iff.
  split; [apply Qnot_le_lt | apply Qlt_not_le].
Qed.

Lemma Qle_bool_false (a b : Q) : Qle_bool a b = false ↔ (b < a)%Q.
Proof.
  rewrite <- not_true_iff_false, Qle_bool_iff.
  split; [apply Qnot_le_lt | apply Qlt_not_le].
Qed.

Lemma Qlt_bool_false (a b : Q) : Qlt_bool a b = false ↔ (b <= a)%Q.
Proof.
  unfold Qlt_bool. rewrite negb_false_iff. apply Qle_bool_iff.
Qed.

(** Reading a list at a position inside it. *)
Lemma py_getitem_inside {A : Type} (l : list A) (i : nat) (a : A) :
  l !! i = Some a → py_getitem l (Z.of_nat i) = Ok a.
Proof.
  intros Hi. pose proof (lookup_lt_Some _ _ _ Hi) as Hlt.
  unfold py_getitem.
  replace (Z.of_nat i <? 0) with false by (symmetry; apply Z.ltb_ge; lia).
  replace (0 <=? Z.of_nat i) with true by (symmetry; apply Z.leb_le; lia).
  replace (Z.of_nat i <? Z.of_nat (length l)) with true
    by (symmetry; apply Z.ltb_lt; lia).
  simpl. rewrite Nat2Z.id, Hi. reflexivity.
Qed.

Lemma strictly_increasing_tail (a : Q) (t : list Q) :
  strictly_increasing (a :: t) = true → strictly_increasing t = true.
Proof.
  destruct t as [|b t]; [reflexivity|].
  cbn [strictly_increasing]. intros H. apply andb_true_iff in H. tauto.
Qed.

Lemma strictly_increasing_head (a b : Q) (t : list Q) (i : nat) :
  strictly_increasing (a :: t) = true → t !! i = Some b → (a < b)%Q.
Proof.
  revert a t. induction i as [|i IH]; intros a t Hs Hi.
  - destruct t as [|c t]; [discriminate|]. simpl in Hi. injection Hi as ->.
    cbn [strictly_increasing] in Hs. apply andb_true_iff in Hs.
    apply Qlt_bool_iff. tauto.
  - destruct t as [|c t]; [discriminate|]. simpl in Hi.
    assert (a < c)%Q as Hac.
    { cbn [strictly_increasing] in Hs. apply andb_true_iff in Hs.
      apply Qlt_bool_iff. tauto. }
    pose proof (IH c t (strictly_increasing_tail _ _ Hs) Hi). lra.
Qed.

(** A strictly increasing array is increasing between any two positions. *)
Lemma strictly_increasing_lt (t : list Q) (i j : nat) (a b : Q) :
  strictly_increasing t = true → (i < j)%nat →
  t !! i = Some a → t !! j = Some b → (a < b)%Q.
Proof.
  revert i j. induction t as [|c t IH]; intros i j Hs Hij Hi Hj; [discriminate|].
  destruct j as [|j]; [lia|]. destruct i as [|i].
  - simpl in Hi, Hj. injection Hi as ->. eapply strictly_increasing_head; eauto.
  - simpl in Hi, Hj. eapply (IH i j); eauto using strictly_increasing_tail. lia.
Qed.

Lemma strictly_increasing_le (t : list Q) (i j : nat) (a b : Q) :
  strictly_increasing t = true → (i ≤ j)%nat →
  t !! i = Some a → t !! j = Some b → (a <= b)%Q.
Proof.
  intros Hs Hij Hi Hj. destruct (decide (i = j)) as [->|Hne].
  - rewrite Hi in Hj. injection Hj as ->. lra.
  - apply Qlt_le_weak. eapply (strictly_increasing_lt t i j); eauto. lia.
Qed.

Lemma brackets_spec (t : list Q) (x : Q) (i : nat) :
  brackets t x i = true ↔
  ∃ lo hi, t !! i = Some lo ∧ t !! S i = Some hi ∧ (lo <= x)%Q ∧ (x < hi)%Q.
Proof.
  unfold brackets. split.
  - destruct (t !! i) as [lo|]; [|discriminate].
    destruct (t !! S i) as [hi|]; [|discriminate].
    intros H. apply andb_true_iff in H as [H1 H2].
    apply Qle_bool_iff in H1. apply Qlt_bool_iff in H2. eauto 6.
  - intros (lo & hi & -> & -> & H1 & H2).
    apply andb_true_iff. split; [by apply Qle_bool_iff | by apply Qlt_bool_iff].
Qed.

(** At most one position brackets a target in a strictly increasing array. *)
Lemma brackets_unique (t : list Q) (x : Q) (i j : nat) :
  strictly_increasing t = true →
  brackets t x i = true → brackets t x j = true → i = j.
Proof.
  intros Hs Hi Hj.
  apply brackets_spec in Hi as (a & b & Ha & Hb & Hax & Hxb).
  apply brackets_spec in Hj as (c & d & Hc & Hd & Hcx & Hxd).
  destruct (Nat.lt_trichotomy i j) as [Hlt | [-> | Hlt]]; [|done|].
  - pose proof (strictly_increasing_le t (S i) j b c Hs ltac:(lia) Hb Hc). lra.
  - pose proof (strictly_increasing_le t (S j) i d a Hs ltac:(lia) Hd Ha). lra.
Qed.

(** A target within the range of the array is bracketed somewhere. *)
Lemma brackets_exists (t : list Q) (x : Q) :
  within_range t x = true → ∃ i, brackets t x i = true.
Proof.
  unfold within_range. destruct t as [|a t]; [discriminate|]. simpl head.
  revert a. induction t as [|b t IH]; intros a.
  - simpl. intros H. apply andb_true_iff in H as [H1 H2].
    apply Qle_bool_iff in H1. apply Qlt_bool_iff in H2. lra.
  - change (last (a :: b :: t)) with (last (b :: t)).
    destruct (last (b :: t)) as [hi|] eqn:Hlast; [|discriminate].
    intros H. apply andb_true_iff in H as [H1 H2].
    destruct (Qlt_bool x b) eqn:Hxb.
    + exists 0%nat. unfold brackets. simpl. by rewrite H1, Hxb.
    + destruct (IH b) as [i Hi].
      { rewrite Hlast. simpl. apply Qlt_bool_false, Qle_bool_iff in Hxb.
        by rewrite Hxb, H2. }
      exists (S i). exact Hi.
Qed.
End SearchFacts.

Section Convergence.
Import MarkSearch.
Variables (t : list Q) (x : Q) (k : nat).
Hypothesis Hinc : strictly_increasing t = true.
Hypothesis Hk : brackets t x k = true.

Local Abbreviation n := (Z.of_nat (length t)).

Lemma target_inside : 0 <= Z.of_nat k <= n - 2.
Proof.
  apply brackets_spec in Hk as (lo & hi & _ & Hhi & _).
  apply lookup_lt_Some in Hhi.  lia.
Qed.

Lemma getitem_inside (i : Z) :
  0 <= i < n → ∃ a, t !! Z.to_nat i = Some a ∧ py_getitem t i = Ok a.
Proof.
  intros Hi. destruct (lookup_lt_is_Some_2 t (Z.to_nat i)) as [a Ha].
  {  lia. }
  exists a. split; [exact Ha|].
  rewrite <- (Z2Nat.id i) by lia. by apply py_getitem_inside.
Qed.

(** Away from the target, the sample to the right tells the side the
    target is on. *)
Lemma right_sample_side (i : Z) (hi : Q) :
  0 <= i <= n - 2 → i ≠ Z.of_nat k → t !! Z.to_nat (i + 1) = Some hi →
  Qle_bool hi x = bool_decide (i < Z.of_nat k).
Proof.
  intros Hi Hne Hhi.
  apply brackets_spec in Hk as (a & b & Ha & Hb & Hax & Hxb).
  case_bool_decide as Hlt.
  - apply Qle_bool_iff.
    pose proof (strictly_increasing_le t (Z.to_nat (i + 1)) k hi a Hinc
                  ltac:(lia) Hhi Ha). lra.
  - apply Qle_bool_false.
    pose proof (strictly_increasing_le t (S k) (Z.to_nat (i + 1)) b hi Hinc
                  ltac:(lia) Hb Hhi). lra.
Qed.

Lemma in_bracket_inside (i : Z) :
  0 <= i <= n - 2 → in_bracket t x i = Ok (bool_decide (i = Z.of_nat k)).
Proof.
  intros Hi.
  destruct (getitem_inside i) as (lo & Hlo & Glo); [lia|].
  destruct (getitem_inside (i + 1)) as (hi & Hhi & Ghi); [lia|].
  unfold in_bracket. rewrite Glo. cbn. rewrite Ghi. cbn.
  case_bool_decide as Heq.
  - subst i. apply brackets_spec in Hk as (a & b & Ha & Hb & Hax & Hxb).
    rewrite Nat2Z.id in Hlo.
    replace (Z.to_nat (Z.of_nat k + 1)) with (S k) in Hhi by lia.
    rewrite Ha in Hlo. rewrite Hb in Hhi. injection Hlo as <-. injection Hhi as <-.
    apply Qle_bool_iff in Hax. apply Qlt_bool_iff in Hxb.
    by rewrite Hax, Hxb.
  - destruct (Qle_bool lo x) eqn:Hlox; [|reflexivity]. f_equal.
    apply Qlt_bool_false.
    pose proof (right_sample_side i hi Hi Heq Hhi) as Hside.
    case_bool_decide as Hlt.
    + by apply Qle_bool_iff.
    + exfalso. apply Qle_bool_iff in Hlox.
      apply brackets_spec in Hk as (a & b & Ha & Hb & Hax & Hxb).
      pose proof (strictly_increasing_le t (S k) (Z.to_nat i) b lo Hinc
                    ltac:(lia) Hb Hlo). lra.
Qed.

Lemma search_turn_found (d : Z) :
  search_turn t x (Z.of_nat k) d = Ok (Break (Z.of_nat k)).
Proof.
  unfold search_turn. rewrite in_bracket_inside by apply target_inside.
  cbn. by rewrite bool_decide_eq_true_2.
Qed.

Lemma search_turn_jump (i d : Z) :
  0 <= i <= n - 2 → i ≠ Z.of_nat k →
  search_turn t x i d =
    Ok (Again (if bool_decide (i < Z.of_nat k) then i + halve d else i - halve d)
              (halve d)).
Proof.
  intros Hi Hne. unfold search_turn. rewrite in_bracket_inside by done.
  cbn. rewrite bool_decide_eq_false_2 by done.
  destruct (getitem_inside (i + 1)) as (hi & Hhi & Ghi); [lia|].
  rewrite Ghi. cbn. rewrite (right_sample_side i hi) by done.
  by case_bool_decide.
Qed.

Lemma halve_small (d : Z) : 1 <= d <= 3 → halve d = 1.
Proof.
  intros Hd. unfold halve.
  assert (d = 1 ∨ d = 2 ∨ d = 3) as Hcases by lia.
  destruct Hcases as [-> | [-> | ->]]; reflexivity.
Qed.

Lemma halve_large (d : Z) : 4 <= d → 2 <= halve d ∧ 2 * halve d <= d.
Proof.
  intros Hd. unfold halve. rewrite Z.quot_div_nonneg by lia.
  pose proof (Z.div_mod d 2 ltac:(lia)). pose proof (Z.mod_pos_bound d 2 ltac:(lia)).
  destruct (Z.eqb_spec (d / 2) 0); lia.
Qed.

Lemma search_inv_jump (i d : Z) :
  search_inv n i d → i ≠ Z.of_nat k →
  let d' := halve d in
  let i' := if bool_decide (i < Z.of_nat k) then i + d' else i - d' in
  search_inv n i' d' ∧ search_measure k i' d' < search_measure k i d.
Proof.
  intros (Hi & Hd & Hbig) Hne d' i'. pose proof target_inside as Hkin.
  unfold search_inv, search_measure.
  destruct (Z_lt_le_dec d 4) as [Hsmall|Hlarge].
  - assert (d' = 1) as Hd' by (apply halve_small; lia).
    subst i'. rewrite Hd'. case_bool_decide; lia.
  - destruct (halve_large d Hlarge) as [H2 Hhalf]. fold d' in H2, Hhalf.
    specialize (Hbig ltac:(lia)).
    subst i'. case_bool_decide; lia.
Qed.

Lemma search_loop_converges (fuel : nat) (i d : Z) :
  search_inv n i d → search_measure k i d < Z.of_nat fuel →
  search_loop fuel t x i d = Some (Ok (Z.of_nat k)).
Proof.
  revert i d. induction fuel as [|fuel IH]; intros i d Hinv Hfuel.
  - unfold search_measure in Hfuel. destruct Hinv as (_ & ? & _). lia.
  - cbn [search_loop]. destruct (decide (i = Z.of_nat k)) as [->|Hne].
    + by rewrite search_turn_found.
    + rewrite search_turn_jump by (done || apply Hinv).
      destruct (search_inv_jump i d Hinv Hne) as [Hinv' Hless].
      apply IH; [exact Hinv'|lia].
Qed.

Lemma mark_xdata_search_converges (fuel : nat) :
  (3 ≤ length t)%nat → (2 * length t < fuel)%nat →
  mark_xdata_search fuel t x = Some (Ok (Z.of_nat k)).
Proof.
  intros Hlen Hfuel. unfold mark_xdata_search, start_index.
  pose proof target_inside as Hkin.
  rewrite Z.quot_div_nonneg by lia.
  pose proof (Z.div_mod n 2 ltac:(lia)). pose proof (Z.mod_pos_bound n 2 ltac:(lia)).
  assert (3 <= n) by lia.
  apply search_loop_converges.
  - unfold search_inv. lia.
  - unfold search_measure.  lia.
Qed.
End Convergence.

(** A search that has left the loop leaves it the same way with more fuel. *)
Lemma search_loop_more_fuel (fuel extra : nat) (t : list Q) (x : Q) (i d : Z)
    (r : result Z) :
  MarkSearch.search_loop fuel t x i d = Some r →
  MarkSearch.search_loop (fuel + extra) t x i d = Some r.
Proof.
  revert i d. induction fuel as [|fuel IH]; intros i d; [discriminate|].
  cbn [MarkSearch.search_loop Nat.add].
  destruct (MarkSearch.search_turn t x i d) as [[j|i' d']|e]; auto.
Qed.

(** For an array of at least three strictly increasing samples and a
    target [x] with [t[0] <= x < t[last]], exactly one index brackets
    [x], and the search leaves its loop at that index within
    [2 * len(t) + 1] turns, reading the array only inside its bounds. *)
Theorem mark_xdata_search_finds_bracket (t : list Q) (x : Q) :
  MarkSearch.strictly_increasing t = true →
  (3 ≤ length t)%nat →
  MarkSearch.within_range t x = true →
  ∃ i : nat,
    MarkSearch.brackets t x i = true ∧
    (∀ j, MarkSearch.brackets t x j = true → j = i) ∧
    ∀ extra : nat,
      MarkSearch.mark_xdata_search (2 * length t + 1 + extra) t x = Some (Ok (Z.of_nat i)).
Proof.
  intros Hinc Hlen Hrange.
  destruct (brackets_exists t x Hrange) as [i Hi].
  exists i. split; [exact Hi|]. split.
  - intros j Hj. eapply brackets_unique; eauto.
  - intros extra. apply mark_xdata_search_converges; auto. lia.
Qed.

Lemma mark_xdata_search_finds_bracket_witness :
  ∃ i : nat,
    MarkSearch.brackets [0; 1; 2; 3; 4]%Q 2.3 i = true ∧
    (∀ j, MarkSearch.brackets [0; 1; 2; 3; 4]%Q 2.3 j = true → j = i) ∧
    ∀ extra : nat,
      MarkSearch.mark_xdata_search (2 * 5 + 1 + extra) [0; 1; 2; 3; 4]%Q 2.3
      = Some (Ok (Z.of_nat i)).
Proof.
  apply (mark_xdata_search_finds_bracket [0; 1; 2; 3; 4]%Q 2.3);
    [reflexivity | simpl; lia | reflexivity].
Defined.

(** C1.  On the time array [0,1,2,3,4] the search for 2.3 stops at index
    2, but the searches for 4.5 and for -1 do not return an index: each
    walks to the end of the array and raises [IndexError] when it reads
    past it. *)
Theorem mark_xdata_search_boundary_raises :
  (∀ extra : nat,
     MarkSearch.mark_xdata_search (1 + extra) [0; 1; 2; 3; 4]%Q 2.3 = Some (Ok 2)) ∧
  (∀ extra : nat,
     MarkSearch.mark_xdata_search (3 + extra) [0; 1; 2; 3; 4]%Q 4.5
     = Some (Raise IndexError)) ∧
  (∀ extra : nat,
     MarkSearch.mark_xdata_search (9 + extra) [0; 1; 2; 3; 4]%Q (-1)
     = Some (Raise IndexError)).
Proof.
  split; [|split]; intros extra;
    unfold MarkSearch.mark_xdata_search; apply search_loop_more_fuel; reflexivity.
Qed.

(** C2.  The array [0,1] is strictly increasing and the target 0 lies in
    its range, bracketed at index 0; the search starts at index 1 and
    raises [IndexError] on its first turn, reading [t[2]]. *)
Theorem mark_xdata_search_two_samples_raises :
  MarkSearch.strictly_increasing [0; 1]%Q = true ∧
  MarkSearch.within_range [0; 1]%Q 0 = true ∧
  MarkSearch.brackets [0; 1]%Q 0 0 = true ∧
  ∀ extra : nat,
    MarkSearch.mark_xdata_search (1 + extra) [0; 1]%Q 0 = Some (Raise IndexError).
Proof.
  split; [reflexivity|]. split; [reflexivity|]. split; [reflexivity|].
  intros extra.
  unfold MarkSearch.mark_xdata_search. apply search_loop_more_fuel. reflexivity.
Qed.

(** ** The marker-column scan *)

Section ScanFacts.
Import Marker.
Variable mark_xdata_call : Q → result ().
Variables (xs ys : list Q) (threshold : Q).

Hypothesis xs_long : (length ys ≤ length xs)%nat.
Hypothesis calls_return :
  ∀ i xi, is_crossing ys threshold i = true → xs !! i = Some xi →
          mark_xdata_call xi = Ok ().

(** One turn of the scan follows the rule: it calls [mark_xdata] exactly
    at a crossing, and leaves the flag as the rule has it before the
    next sample. *)
Lemma scan_turn_follows_rule (st : scan_state) (i : nat) :
  (i < length ys)%nat →
  is_low st = below_before ys threshold i →
  scan_turn mark_xdata_call xs ys threshold st i =
    Ok {| is_low := below_before ys threshold (S i);
          crossings := crossings st ++
                       (if is_crossing ys threshold i then [i] else []) |}.
Proof.
  intros Hi Hlow.
  destruct (lookup_lt_is_Some_2 ys i Hi) as [y Hy].
  destruct (lookup_lt_is_Some_2 xs i ltac:(lia)) as [xi Hxi].
  pose proof (calls_return i xi) as Hcall.
  unfold scan_turn, is_crossing in *. cbn [below_before].
  rewrite Hy in *. rewrite <- Hlow in *.
  rewrite (py_getitem_inside ys i y Hy), (py_getitem_inside xs i xi Hxi).
  destruct st as [low cs]. cbn [is_low crossings] in *.
  destruct low; cbn.
  - destruct (Qlt_bool threshold y) eqn:Hrise; cbn.
    + rewrite Hcall by done. reflexivity.
    + rewrite app_nil_r. by destruct (Qlt_bool y threshold).
  - rewrite app_nil_r. by destruct (Qlt_bool y threshold).
Qed.

Lemma scan_loop_follows_rule (m j : nat) (st : scan_state) :
  (j + m = length ys)%nat →
  is_low st = below_before ys threshold j →
  scan_loop mark_xdata_call xs ys threshold (seq j m) st =
    Ok {| is_low := below_before ys threshold (j + m);
          crossings := crossings st ++
                       filter (λ k, is_crossing ys threshold k = true) (seq j m) |}.
Proof.
  revert j st. induction m as [|m IH]; intros j st Hlen Hlow.
  - cbn. rewrite Nat.add_0_r, app_nil_r, <- Hlow. by destruct st.
  - cbn [seq scan_loop]. rewrite scan_turn_follows_rule by (done || lia). cbn.
    rewrite IH by (done || lia). cbn [is_low crossings].
    rewrite <- app_assoc, Nat.add_succ_r. cbn [Nat.add].
    destruct (is_crossing ys threshold j); by case_decide.
Qed.

Lemma scan_follows_rule :
  scan mark_xdata_call xs ys threshold =
    Ok {| is_low := below_before ys threshold (length ys);
          crossings := detect_crossings ys threshold |}.
Proof.
  unfold scan. by rewrite (scan_loop_follows_rule (length ys) 0).
Qed.
End ScanFacts.

(** C3.  The marker-column scan calls [mark_xdata] exactly at the loop
    indices the rising-edge rule names: the flag starts true, a sample
    strictly above the threshold while the flag is true is a crossing and
    clears the flag, and a sample strictly below the threshold sets it
    again.  For y = [0.1, 0.6, 0.4, 0.7, 0.3] and threshold 0.5 the
    crossings are [1, 3]. *)
Theorem marker_scan_detects_rising_edges :
  (∀ (mark_xdata_call : Q → result ())
     (plot_pair_data : list (string * Marker.pair_data)) (column : string)
     (pd : Marker.pair_data) (threshold : Q),
     Marker.pair_data_get plot_pair_data column = Ok pd →
     (length (Marker.pd_y pd) ≤ length (Marker.pd_x pd))%nat →
     (∀ i xi, Marker.is_crossing (Marker.pd_y pd) threshold i = true →
              Marker.pd_x pd !! i = Some xi → mark_xdata_call xi = Ok ()) →
     Marker.marker_scan mark_xdata_call plot_pair_data column threshold =
       Ok (Marker.detect_crossings (Marker.pd_y pd) threshold)) ∧
  Marker.detect_crossings [0.1; 0.6; 0.4; 0.7; 0.3]%Q 0.5 = [1; 3]%nat.
Proof.
  split; [|reflexivity].
  intros mark ppd column pd threshold Hget Hlen Hcalls.
  unfold Marker.marker_scan. rewrite Hget. cbn.
  by rewrite scan_follows_rule.
Qed.

Lemma marker_scan_detects_rising_edges_witness :
  Marker.marker_scan (λ _, Ok ())
    [("button1"%string,
      {| Marker.pd_x := [0; 1; 2; 3; 4]%Q;
         Marker.pd_y := [0.1; 0.6; 0.4; 0.7; 0.3]%Q;
         Marker.pd_t := [0; 1; 2; 3; 4]%Q;
         Marker.pd_axis := 0 |})]
    "button1" 0.5
  = Ok [1; 3]%nat.
Proof.
  apply (proj1 marker_scan_detects_rising_edges (λ _, Ok ())
           [("button1"%string,
             {| Marker.pd_x := [0; 1; 2; 3; 4]%Q;
                Marker.pd_y := [0.1; 0.6; 0.4; 0.7; 0.3]%Q;
                Marker.pd_t := [0; 1; 2; 3; 4]%Q;
                Marker.pd_axis := 0 |})]
           "button1"%string
           {| Marker.pd_x := [0; 1; 2; 3; 4]%Q;
              Marker.pd_y := [0.1; 0.6; 0.4; 0.7; 0.3]%Q;
              Marker.pd_t := [0; 1; 2; 3; 4]%Q;
              Marker.pd_axis := 0 |}
           0.5%Q);
    [reflexivity | simpl; lia | intros; reflexivity].
Defined.

(** With x and time arrays [0,1,2,3,4] for that column, the two calls the
    scan makes, [mark_xdata(1)] and [mark_xdata(3)], return after marking
    the samples at index 1 and at index 3. *)
Example mark_xdata_at_crossings :
  let pd := {| Marker.pd_x := [0; 1; 2; 3; 4]%Q;
               Marker.pd_y := [0.1; 0.6; 0.4; 0.7; 0.3]%Q;
               Marker.pd_t := [0; 1; 2; 3; 4]%Q;
               Marker.pd_axis := 0 |} in
  Marker.mark_xdata 2 [("button1"%string, pd)] 1 "x" =
    Some ([{| Marker.sc_axis := 0; Marker.sc_x := 1; Marker.sc_y := 0.6;
              Marker.sc_marker := "x" |}], Ok ()) ∧
  Marker.mark_xdata 2 [("button1"%string, pd)] 3 "x" =
    Some ([{| Marker.sc_axis := 0; Marker.sc_x := 3; Marker.sc_y := 0.7;
              Marker.sc_marker := "x" |}], Ok ()).
Proof. split; reflexivity. Qed.

(** ** The plot-spec builders *)

Section StringFacts.

Lemma string_app_nil (s : string) : ("" ++ s)%string = s.
Proof. reflexivity. Qed.

Lemma string_app_cons (a : ascii) (s1 s2 : string) :
  (String a s1 ++ s2)%string = String a (s1 ++ s2).
Proof. reflexivity. Qed.

Lemma find_char_app (c : ascii) (pre post : string) :
  find_char c pre = None →
  find_char c (pre ++ String c post) = Some (String.length pre).
Proof.
  induction pre as [|a pre IH]; intros Hpre.
  - rewrite string_app_nil. cbn. by rewrite Ascii.eqb_refl.
  - rewrite string_app_cons. cbn in *.
    destruct (Ascii.eqb a c); [discriminate|].
    destruct (find_char c pre); [discriminate|]. by rewrite IH.
Qed.

Lemma string_length_app (s1 s2 : string) :
  String.length (s1 ++ s2) = (String.length s1 + String.length s2)%nat.
Proof.
  induction s1 as [|a s1 IH]; [done|].
  rewrite string_app_cons. cbn. by rewrite IH.
Qed.

Lemma string_take_app (s1 s2 : string) :
  string_take (String.length s1) (s1 ++ s2) = s1.
Proof.
  induction s1 as [|a s1 IH].
  - rewrite string_app_nil. by destruct s2.
  - rewrite string_app_cons. cbn. by rewrite IH.
Qed.

Lemma string_drop_app (c : ascii) (s1 s2 : string) :
  string_drop (S (String.length s1)) (s1 ++ String c s2) = s2.
Proof.
  induction s1 as [|a s1 IH].
  - rewrite string_app_nil. by destruct s2.
  - rewrite string_app_cons. exact IH.
Qed.

Lemma slice_bound_inside (n i : Z) : 0 <= i <= n → slice_bound n i = Z.to_nat i.
Proof.
  intros Hi. unfold slice_bound.
  destruct (Z.ltb_spec i 0); [lia|]. f_equal. lia.
Qed.

End StringFacts.

Section BuilderFacts.
Import Builder.

(** A token with a comma is cut at its first comma. *)
Lemma split_pair_comma (x rest : string) :
  find_char "," x = None → split_pair (x ++ "," ++ rest) = Ok (x, rest).
Proof.
  intros Hx. unfold split_pair, py_find, py_index.
  change ("," ++ rest)%string with (String "," rest).
  rewrite (find_char_app _ _ _ Hx).
  rewrite bool_decide_eq_true_2 by lia. cbn.
  unfold py_slice_to, py_slice_from.
  rewrite !slice_bound_inside
    by (rewrite string_length_app; cbn [String.length]; lia).
  rewrite Nat2Z.id.
  replace (Z.to_nat (Z.of_nat (String.length x) + 1)) with (S (String.length x)) by lia.
  by rewrite string_take_app, string_drop_app.
Qed.

(** A token without a comma is a y name on the time axis. *)
Lemma split_pair_plain (token : string) :
  find_char "," token = None → split_pair token = Ok ("timestamp"%string, token).
Proof. intros H. unfold split_pair, py_find. by rewrite H. Qed.

(** Cutting a token never raises: [index] is only called when [find]
    has found the comma. *)
Lemma split_pair_total (token : string) : ∃ xy, split_pair token = Ok xy.
Proof.
  unfold split_pair, py_find, py_index.
  destruct (find_char "," token) as [n|]; cbn.
  - rewrite bool_decide_eq_true_2 by lia. eauto.
  - eauto.
Qed.

Lemma append_current_app (e : dict) (before subplots : list (list dict)) :
  subplots ≠ [] →
  append_current e (before ++ subplots) = before ++ append_current e subplots.
Proof.
  intros Hne. unfold append_current.
  assert (0 < length subplots)%nat by (destruct subplots; [done|cbn; lia]).
  rewrite length_app.
  replace (length before + length subplots - 1)%nat
    with (length before + (length subplots - 1))%nat by lia.
  apply alter_app_r.
Qed.

Lemma append_current_nonempty (e : dict) (subplots : list (list dict)) :
  subplots ≠ [] → append_current e subplots ≠ [].
Proof.
  intros Hne Heq. apply (f_equal length) in Heq.
  unfold append_current in Heq. rewrite length_alter in Heq.
  destruct subplots; [done|discriminate].
Qed.

(** The subplots that are complete when the loop starts are not touched
    by it. *)
Lemma arguments_loop_app (arguments : list string) (before subplots : list (list dict)) :
  subplots ≠ [] →
  arguments_loop arguments (before ++ subplots) =
    (r ← arguments_loop arguments subplots; Ok (before ++ r)).
Proof.
  revert subplots. induction arguments as [|token rest IH]; intros subplots Hne.
  - reflexivity.
  - cbn [arguments_loop]. case_bool_decide.
    + rewrite <- app_assoc. apply IH. by destruct subplots.
    + destruct (split_pair_total token) as [xy ->]. cbn.
      rewrite append_current_app by done.
      apply IH. by apply append_current_nonempty.
Qed.

Lemma arguments_loop_tokens (before after : list string) (subplots : list (list dict)) :
  arguments_loop (before ++ after) subplots =
    (r ← arguments_loop before subplots; arguments_loop after r).
Proof.
  revert subplots. induction before as [|token rest IH]; intros subplots.
  - reflexivity.
  - cbn [app arguments_loop]. case_bool_decide; [apply IH|].
    destruct (split_pair_total token) as [xy ->]. cbn. apply IH.
Qed.

(** The loop never raises and never leaves the list of subplots empty. *)
Lemma arguments_loop_nonempty (arguments : list string) (subplots : list (list dict)) :
  subplots ≠ [] →
  ∃ result, arguments_loop arguments subplots = Ok result ∧ result ≠ [].
Proof.
  revert subplots. induction arguments as [|token rest IH]; intros subplots Hne.
  - by exists subplots.
  - cbn [arguments_loop]. case_bool_decide.
    + apply IH. by destruct subplots.
    + destruct (split_pair_total token) as [xy ->]. cbn.
      apply IH. by apply append_current_nonempty.
Qed.

(** What the dictionary of lines 306-307 holds. *)
Lemma xy_entry_holds (x y : string) :
  xy_entry x y !! "x" = Some (PyStr x) ∧
  xy_entry x y !! "y" = Some (PyStr y) ∧
  dom (xy_entry x y) = ({["x"; "y"]} : gset string).
Proof.
  unfold xy_entry. split; [by simplify_map_eq|]. split; [by simplify_map_eq|].
  rewrite !dom_insert_L, dom_empty_L. set_solver.
Qed.

End BuilderFacts.

(** C4.  The tokens ["a,b", "/", "c", "d"] give two subplots, the first
    with one entry, which holds x=a and y=b, and the second with two
    entries, which hold x=timestamp, y=c and x=timestamp, y=d in this
    order; the entries have no other key.  In general the subplots of a
    token list with a "/" in it are those of the tokens before the "/"
    followed by those of the tokens after it, and a last token without
    a comma adds to the last subplot an entry that holds x=timestamp
    and y=token. *)
Theorem create_subplots_from_arguments_groups :
  (∃ e1 e2 e3 : dict,
     Builder.create_subplots_from_arguments ["a,b"; "/"; "c"; "d"]%string =
       Ok [[e1]; [e2; e3]] ∧
     e1 !! "x" = Some (PyStr "a") ∧ e1 !! "y" = Some (PyStr "b") ∧
     e2 !! "x" = Some (PyStr "timestamp") ∧ e2 !! "y" = Some (PyStr "c") ∧
     e3 !! "x" = Some (PyStr "timestamp") ∧ e3 !! "y" = Some (PyStr "d") ∧
     dom e1 = ({["x"; "y"]} : gset string) ∧
     dom e2 = ({["x"; "y"]} : gset string) ∧
     dom e3 = ({["x"; "y"]} : gset string)) ∧
  (∀ before after : list string,
     Builder.create_subplots_from_arguments (before ++ "/"%string :: after) =
       (s1 ← Builder.create_subplots_from_arguments before;
        s2 ← Builder.create_subplots_from_arguments after;
        Ok (s1 ++ s2))) ∧
  (∀ (before : list string) (token : string),
     token ≠ "/"%string → find_char "," token = None →
     ∃ (init : list (list dict)) (last : list dict) (e : dict),
       Builder.create_subplots_from_arguments before = Ok (init ++ [last]) ∧
       Builder.create_subplots_from_arguments (before ++ [token]) =
         Ok (init ++ [last ++ [e]]) ∧
       e !! "x" = Some (PyStr "timestamp") ∧
       e !! "y" = Some (PyStr token) ∧
       dom e = ({["x"; "y"]} : gset string)).
Proof.
  split; [|split].
  - eexists _, _, _. split; [reflexivity|].
    destruct (xy_entry_holds "a" "b") as (? & ? & ?).
    destruct (xy_entry_holds "timestamp" "c") as (? & ? & ?).
    destruct (xy_entry_holds "timestamp" "d") as (? & ? & ?).
    repeat (split; [assumption|]). assumption.
  - intros before after. unfold Builder.create_subplots_from_arguments.
    rewrite arguments_loop_tokens.
    destruct (Builder.arguments_loop before [[]]) as [s1|e]; [|reflexivity].
    cbn. rewrite bool_decide_eq_true_2 by done.
    by rewrite arguments_loop_app.
  - intros before token Hsep Hplain.
    unfold Builder.create_subplots_from_arguments.
    destruct (arguments_loop_nonempty before [[]] ltac:(done)) as (s & Hrun & Hne).
    destruct (exists_last Hne) as (init & last & ->).
    exists init, last, (Builder.xy_entry "timestamp" token).
    split; [exact Hrun|]. split; [|apply xy_entry_holds].
    rewrite arguments_loop_tokens, Hrun. cbn.
    rewrite bool_decide_eq_false_2 by done. rewrite split_pair_plain by done. cbn.
    by rewrite (append_current_app _ init [last]).
Qed.

Lemma create_subplots_from_arguments_groups_witness :
  ∃ (init : list (list dict)) (last : list dict) (e : dict),
    Builder.create_subplots_from_arguments ["a,b"%string; "/"%string; "c"%string]
    = Ok (init ++ [last]) ∧
    Builder.create_subplots_from_arguments
      (["a,b"%string; "/"%string; "c"%string] ++ ["d"%string])
    = Ok (init ++ [last ++ [e]]) ∧
    e !! "x" = Some (PyStr "timestamp") ∧
    e !! "y" = Some (PyStr "d") ∧
    dom e = ({["x"; "y"]} : gset string).
Proof.
  apply (proj2 (proj2 create_subplots_from_arguments_groups)
           ["a,b"; "/"; "c"]%string "d"%string);
    [discriminate | reflexivity].
Defined.

(** C10.  A token with a comma is cut at its first comma only: the
    entry built from it holds under x what stands before that comma and
    under y everything after it, further commas included, and has no
    other key; so "a,b,c" gives the entry with x=a and y="b,c". *)
Theorem create_subplots_from_arguments_first_comma :
  (∀ x rest : string,
     find_char "," x = None →
     Builder.split_pair (x ++ "," ++ rest) = Ok (x, rest) ∧
     ∃ e : dict,
       Builder.create_subplots_from_arguments [(x ++ "," ++ rest)%string] = Ok [[e]] ∧
       e !! "x" = Some (PyStr x) ∧
       e !! "y" = Some (PyStr rest) ∧
       dom e = ({["x"; "y"]} : gset string)) ∧
  (∃ e : dict,
     Builder.create_subplots_from_arguments ["a,b,c"%string] = Ok [[e]] ∧
     e !! "x" = Some (PyStr "a") ∧
     e !! "y" = Some (PyStr "b,c") ∧
     dom e = ({["x"; "y"]} : gset string)).
Proof.
  split.
  - intros x rest Hx. split; [by apply split_pair_comma|].
    exists (Builder.xy_entry x rest). split; [|apply xy_entry_holds].
    unfold Builder.create_subplots_from_arguments. cbn [Builder.arguments_loop].
    rewrite bool_decide_eq_false_2.
    + by rewrite split_pair_comma.
    + intros Heq. apply (f_equal (find_char ",")) in Heq.
      change ("," ++ rest)%string with (String "," rest) in Heq.
      rewrite (find_char_app _ _ _ Hx) in Heq. discriminate.
  - eexists. split; [reflexivity|]. apply (xy_entry_holds "a" "b,c").
Qed.

Lemma create_subplots_from_arguments_first_comma_witness :
  Builder.split_pair ("a" ++ "," ++ "b,c") = Ok ("a"%string, "b,c"%string) ∧
  ∃ e : dict,
    Builder.create_subplots_from_arguments [("a" ++ "," ++ "b,c")%string] = Ok [[e]] ∧
    e !! "x" = Some (PyStr "a") ∧
    e !! "y" = Some (PyStr "b,c") ∧
    dom e = ({["x"; "y"]} : gset string).
Proof.
  apply (proj1 create_subplots_from_arguments_first_comma "a"%string "b,c"%string).
  reflexivity.
Defined.

(** ** [main] up to the first gather *)

Section ProgFacts.
Import Main.

Lemma prog_bind_ok {A B : Type} (m : prog A) (k : A → prog B) (tr : list event) (a : A) :
  m = (tr, Ok a) → (m ≫= k) = ((tr ++ (k a).1), (k a).2).
Proof. intros ->. unfold mbind, prog_bind. by destruct (k a). Qed.

Lemma prog_bind_raise {A B : Type} (m : prog A) (k : A → prog B) (tr : list event) (e : exn) :
  m = (tr, Raise e) → (m ≫= k) = (tr, Raise e).
Proof. by intros ->. Qed.

(** A sequence that ends well has a first part that ends well. *)
Lemma prog_bind_inv_ok {A B : Type} (m : prog A) (k : A → prog B) (tr : list event) (b : B) :
  (m ≫= k) = (tr, Ok b) →
  ∃ tr1 a tr2, m = (tr1, Ok a) ∧ k a = (tr2, Ok b) ∧ tr = tr1 ++ tr2.
Proof.
  destruct m as [tr1 [a|e]]; unfold mbind, prog_bind; [|discriminate].
  destruct (k a) as [tr2 r] eqn:Hk. intros [= <- ->]. eauto 6.
Qed.

End ProgFacts.

Section ResolveFacts.
Import Main.
Variable ds : data_source.

Lemma find_identifiers_eq (x y : string) :
  find_identifiers ds x y =
    (lookups x y, Ok (x_identifier ds x y, find_column_identifier ds y)).
Proof. unfold find_identifiers, lookups, x_identifier. by case_bool_decide. Qed.

Lemma process_entry_names (axis : nat) (entry : dict) (x y : string) :
  entry !! "x" = Some (PyStr x) → entry !! "y" = Some (PyStr y) →
  process_entry ds axis entry = resolve_entry ds axis entry x y.
Proof.
  intros Hx Hy. unfold process_entry, py_dict_get. rewrite Hx, Hy.
  unfold lift, mbind, prog_bind.
  by destruct (resolve_entry ds axis entry x y).
Qed.

Lemma process_entry_x_missing (axis : nat) (entry : dict) (x y : string) :
  entry !! "x" = Some (PyStr x) → entry !! "y" = Some (PyStr y) →
  x_identifier ds x y = PyNone →
  process_entry ds axis entry = (lookups x y, Raise (ValueError (x_not_found x y))).
Proof.
  intros Hx Hy Hnone. rewrite (process_entry_names axis entry x y Hx Hy).
  unfold resolve_entry. rewrite (prog_bind_ok _ _ _ _ (find_identifiers_eq x y)).
  cbn [fst snd]. unfold check_identifiers. rewrite Hnone. cbn.
  by rewrite ?app_nil_r.
Qed.

Lemma process_entry_y_missing (axis : nat) (entry : dict) (x y : string) :
  entry !! "x" = Some (PyStr x) → entry !! "y" = Some (PyStr y) →
  x_identifier ds x y ≠ PyNone → find_column_identifier ds y = PyNone →
  process_entry ds axis entry = (lookups x y, Raise (ValueError (y_not_found y))).
Proof.
  intros Hx Hy Hsome Hnone. rewrite (process_entry_names axis entry x y Hx Hy).
  unfold resolve_entry. rewrite (prog_bind_ok _ _ _ _ (find_identifiers_eq x y)).
  cbn [fst snd]. unfold check_identifiers. rewrite Hnone.
  destruct (x_identifier ds x y); try done; cbn; by rewrite ?app_nil_r.
Qed.

Lemma check_identifiers_ok (x y : string) (xident yident : pyval)
    (tr : list event) (u : ()) :
  check_identifiers x y xident yident = (tr, Ok u) →
  xident ≠ PyNone ∧ yident ≠ PyNone.
Proof.
  unfold check_identifiers.
  destruct xident; cbn [is_none]; try discriminate;
    destruct yident; cbn [is_none]; try discriminate; done.
Qed.

(** An entry that goes through its resolution has both identifiers, and
    leaves with the four keys of lines 394-397 added. *)
Lemma process_entry_ok (axis : nat) (entry entry' : dict) (x y : string)
    (tr : list event) :
  entry !! "x" = Some (PyStr x) → entry !! "y" = Some (PyStr y) →
  process_entry ds axis entry = (tr, Ok entry') →
  x_identifier ds x y ≠ PyNone ∧ find_column_identifier ds y ≠ PyNone ∧
  entry' = attach (x_identifier ds x y) (find_column_identifier ds y) axis entry.
Proof.
  intros Hx Hy. rewrite (process_entry_names axis entry x y Hx Hy).
  unfold resolve_entry. intros Hrun.
  apply prog_bind_inv_ok in Hrun as (t1 & ids & t2 & H1 & H2 & ->).
  rewrite find_identifiers_eq in H1. injection H1 as <- <-.
  apply prog_bind_inv_ok in H2 as (t3 & u & t4 & H3 & H4 & ->).
  apply check_identifiers_ok in H3 as [Hxi Hyi].
  apply prog_bind_inv_ok in H4 as (t5 & u' & t6 & _ & H6 & ->).
  by injection H6 as <- <-.
Qed.

(** An entry that raises ends the loop over its subplot, after the
    entries before it. *)
Lemma process_subplot_raises (axis : nat) (before after : list dict) (entry : dict)
    (tr_before tr : list event) (done : list dict) (e : exn) :
  process_subplot ds axis before = (tr_before, Ok done) →
  process_entry ds axis entry = (tr, Raise e) →
  process_subplot ds axis (before ++ entry :: after) = (tr_before ++ tr, Raise e).
Proof.
  revert tr_before done. induction before as [|b before IH]; intros tr_before done Hb He.
  - injection Hb as <- <-. cbn. by rewrite (prog_bind_raise _ _ _ _ He).
  - cbn [app process_subplot] in *.
    apply prog_bind_inv_ok in Hb as (t1 & b' & t2 & Hb1 & Hb2 & ->).
    apply prog_bind_inv_ok in Hb2 as (t3 & es & t4 & Hb3 & Hb4 & ->).
    injection Hb4 as <- <-.
    rewrite (prog_bind_ok _ _ _ _ Hb1).
    rewrite (prog_bind_raise _ _ _ _ (IH _ _ Hb3 He)). cbn.
    by rewrite app_nil_r, app_assoc.
Qed.

(** The same for the loop over the subplots. *)
Lemma process_plots_raises (axis : nat) (before_subplots after_subplots : list (list dict))
    (before after : list dict) (entry : dict)
    (tr_before tr : list event) (done : list dict) (e : exn) :
  process_plots ds axis (before_subplots ++ [before]) = (tr_before, Ok done) →
  process_entry ds (axis + length before_subplots) entry = (tr, Raise e) →
  process_plots ds axis
    (before_subplots ++ (before ++ entry :: after) :: after_subplots)
  = (tr_before ++ tr, Raise e).
Proof.
  revert axis tr_before done.
  induction before_subplots as [|s ss IH]; intros axis tr_before done Hb He.
  - cbn [app process_plots length] in *. rewrite Nat.add_0_r in He.
    apply prog_bind_inv_ok in Hb as (t1 & es & t2 & Hb1 & Hb2 & ->).
    injection Hb2 as <- <-.
    rewrite (prog_bind_raise _ _ _ _ (process_subplot_raises _ _ _ _ _ _ _ _ Hb1 He)).
    by rewrite app_nil_r.
  - cbn [app process_plots length] in *.
    apply prog_bind_inv_ok in Hb as (t1 & es & t2 & Hb1 & Hb2 & ->).
    apply prog_bind_inv_ok in Hb2 as (t3 & es' & t4 & Hb3 & Hb4 & ->).
    injection Hb4 as <- <-.
    rewrite (prog_bind_ok _ _ _ _ Hb1).
    replace (axis + S (length ss))%nat with (S axis + length ss)%nat in He by lia.
    rewrite (prog_bind_raise _ _ _ _ (IH _ _ _ Hb3 He)). cbn.
    by rewrite app_nil_r, app_assoc.
Qed.

End ResolveFacts.

(** The events of [main] before its loop over the entries, when the data
    source opens with the events [tr_open]. *)
Local Abbreviation prologue a tr_open nrows :=
  (match Main.nonempty_string (Main.output_file a) with
   | Some _ => [Main.UseAgg]
   | None => []
   end ++ tr_open ++ [Main.Subplots nrows]).

(** When everything before the loop goes well, [main] ends as its loop
    over the entries ends. *)
Lemma main_prepare_loop (w : Main.world) (a : Main.args) (ds : Main.data_source)
    (plots : list (list dict)) (tr_open tr : list Main.event) (e : exn) :
  Main.build_plots a = Ok plots →
  Main.open_data_source w a plots = (tr_open, Ok ds) →
  Main.list_variables a = false →
  Main.plt_subplots w (length plots) = Ok () →
  Main.process_plots ds 0 plots = (tr, Raise e) →
  Main.main_prepare w a = (prologue a tr_open (length plots) ++ tr, Raise e).
Proof.
  intros Hplots Hopen Hlist Hsub Hloop. unfold Main.main_prepare.
  rewrite Hplots, Hlist.
  destruct (Main.nonempty_string (Main.output_file a));
    cbn -[Main.open_data_source Main.process_plots]; rewrite Hopen;
    cbn -[Main.process_plots]; rewrite Hsub;
    cbn -[Main.process_plots]; rewrite Hloop; cbn;
    by rewrite <- ?app_assoc.
Qed.

Section YamlFacts.
Import Builder.

Lemma yaml_entry_missing_y (entry : dict) :
  entry !! "y" = None → yaml_entry entry = Raise (KeyError "y").
Proof. intros Hy. unfold yaml_entry, py_dict_get. by rewrite Hy. Qed.

(** [KeyError: 'y'] is the only way an entry of the tree can fail. *)
Lemma yaml_entry_cases (entry : dict) :
  yaml_entry entry = Raise (KeyError "y") ∨ ∃ e, yaml_entry entry = Ok e.
Proof.
  unfold yaml_entry, py_dict_get. destruct (entry !! "y"); cbn; eauto.
Qed.

Lemma yaml_subplot_cases (entries : list dict) :
  yaml_subplot entries = Raise (KeyError "y") ∨ ∃ es, yaml_subplot entries = Ok es.
Proof.
  induction entries as [|entry rest IH]; cbn; [eauto|].
  destruct (yaml_entry_cases entry) as [->|[e ->]]; cbn; [eauto|].
  destruct IH as [->|[es ->]]; cbn; eauto.
Qed.

Lemma yaml_subplot_missing_y (entries : list dict) (entry : dict) :
  entry ∈ entries → entry !! "y" = None →
  yaml_subplot entries = Raise (KeyError "y").
Proof.
  intros Hin Hy. induction entries as [|other rest IH].
  - by apply elem_of_nil in Hin.
  - cbn [yaml_subplot]. apply elem_of_cons in Hin as [<-|Hin].
    + by rewrite yaml_entry_missing_y.
    + destruct (yaml_entry_cases other) as [->|[e ->]]; cbn; [done|].
      by rewrite IH.
Qed.

Lemma create_subplots_from_yaml_missing_y (plots : list (pyval * list dict))
    (key : pyval) (entries : list dict) (entry : dict) :
  (key, entries) ∈ plots → entry ∈ entries → entry !! "y" = None →
  create_subplots_from_yaml plots = Raise (KeyError "y").
Proof.
  intros Hin Hentry Hy. induction plots as [|[k other] rest IH].
  - by apply elem_of_nil in Hin.
  - cbn [create_subplots_from_yaml]. apply elem_of_cons in Hin as [[= <- <-]|Hin].
    + by rewrite (yaml_subplot_missing_y _ _ Hentry Hy).
    + destruct (yaml_subplot_cases other) as [->|[es ->]]; cbn; [done|].
      by rewrite IH.
Qed.

End YamlFacts.

(** C8.  When the plot pairs are absent and the YAML plot tree has an
    entry without the key ['y'], [create_subplots_from_yaml] raises
    [KeyError: 'y'], and [main] ends with it before it has opened a data
    source or looked up a column: the only event, if any, is the choice
    of the drawing backend. *)
Theorem yaml_entry_without_y_aborts (w : Main.world) (a : Main.args)
    (contents : list (pyval * list dict)) :
  Main.plot_pairs a = None ∨ Main.plot_pairs a = Some [] →
  Main.yaml_plots a = Ok contents →
  (∃ key entries entry,
     (key, entries) ∈ contents ∧ entry ∈ entries ∧ entry !! "y" = None) →
  Builder.create_subplots_from_yaml contents = Raise (KeyError "y") ∧
  Main.main_prepare w a =
    (match Main.nonempty_string (Main.output_file a) with
     | Some _ => [Main.UseAgg]
     | None => []
     end, Raise (KeyError "y")).
Proof.
  intros Hpairs Hyaml (key & entries & entry & Hin & Hentry & Hy).
  pose proof (create_subplots_from_yaml_missing_y _ _ _ _ Hin Hentry Hy) as Hraise.
  split; [exact Hraise|].
  assert (Main.build_plots a = Raise (KeyError "y")) as Hbuild.
  { unfold Main.build_plots. destruct Hpairs as [-> | ->]; by rewrite Hyaml. }
  unfold Main.main_prepare. rewrite Hbuild.
  by destruct (Main.nonempty_string (Main.output_file a)).
Qed.

Lemma yaml_entry_without_y_aborts_witness :
  Builder.create_subplots_from_yaml
    [(PyStr "top", [({["x" := PyStr "height"]} : dict)])] = Raise (KeyError "y") ∧
  Main.main_prepare Sample.world
    (Sample.yaml_args [(PyStr "top", [({["x" := PyStr "height"]} : dict)])])
  = ([], Raise (KeyError "y")).
Proof.
  apply (yaml_entry_without_y_aborts Sample.world
           (Sample.yaml_args [(PyStr "top", [({["x" := PyStr "height"]} : dict)])])
           [(PyStr "top", [({["x" := PyStr "height"]} : dict)])]);
    [left; reflexivity | reflexivity |].
  exists (PyStr "top"), [({["x" := PyStr "height"]} : dict)],
         ({["x" := PyStr "height"]} : dict).
  split; [apply list_elem_of_here|]. split; [apply list_elem_of_here|reflexivity].
Defined.

Lemma string_app_assoc (s1 s2 s3 : string) :
  ((s1 ++ s2) ++ s3)%string = (s1 ++ s2 ++ s3)%string.
Proof.
  induction s1 as [|a s1 IH]; [done|].
  rewrite !string_app_cons. by rewrite IH.
Qed.

Lemma x_not_found_mentions (x y : string) :
  Main.mentions x (Main.x_not_found x y) ∧ Main.mentions y (Main.x_not_found x y).
Proof.
  split.
  - by exists "failed to find x data for "%string, (" (with y of " ++ y ++ ") ")%string.
  - exists ("failed to find x data for " ++ x ++ " (with y of ")%string, ") "%string.
    unfold Main.x_not_found. by rewrite !string_app_assoc.
Qed.

Lemma y_not_found_mentions (y : string) : Main.mentions y (Main.y_not_found y).
Proof.
  exists "failed to find y data for "%string, ""%string.
  unfold Main.y_not_found. f_equal. induction y as [|a y IH]; [done|].
  rewrite string_app_cons. by rewrite <- IH.
Qed.

(** C6.  Let an entry with the names [x] and [y] be reached by the loop
    of [main], everything before it having gone well.  If its x
    identifier is null, [main] ends with the [ValueError] whose message
    names [x] and [y]; if only its y identifier is null, [main] ends
    with the [ValueError] whose message names [y].  Either way the last
    events are the two column lookups of the entry: [main] does not get
    to [gather_new_data] or to the plotting loop. *)
Theorem column_not_found_aborts (w : Main.world) (a : Main.args) (ds : Main.data_source)
    (before_subplots after_subplots : list (list dict)) (before after : list dict)
    (entry : dict) (x y : string) (tr_open tr_before : list Main.event)
    (done : list dict) :
  Main.build_plots a =
    Ok (before_subplots ++ (before ++ entry :: after) :: after_subplots) →
  Main.open_data_source w a
    (before_subplots ++ (before ++ entry :: after) :: after_subplots)
  = (tr_open, Ok ds) →
  Main.list_variables a = false →
  Main.plt_subplots w (S (length before_subplots + length after_subplots)) = Ok () →
  Main.process_plots ds 0 (before_subplots ++ [before]) = (tr_before, Ok done) →
  entry !! "x" = Some (PyStr x) →
  entry !! "y" = Some (PyStr y) →
  let xident := if bool_decide (x = "timestamp"%string)
                then Main.find_column_timestamp_identifier ds y
                else Main.find_column_identifier ds x in
  let yident := Main.find_column_identifier ds y in
  let events :=
    match Main.nonempty_string (Main.output_file a) with
    | Some _ => [Main.UseAgg]
    | None => []
    end ++ tr_open ++
    [Main.Subplots (S (length before_subplots + length after_subplots))] ++
    tr_before ++
    [Main.FindColumn y;
     if bool_decide (x = "timestamp"%string)
     then Main.FindTimestamp y else Main.FindColumn x] in
  (xident = PyNone →
   Main.main_prepare w a = (events, Raise (ValueError (Main.x_not_found x y))) ∧
   Main.mentions x (Main.x_not_found x y) ∧
   Main.mentions y (Main.x_not_found x y)) ∧
  (xident ≠ PyNone → yident = PyNone →
   Main.main_prepare w a = (events, Raise (ValueError (Main.y_not_found y))) ∧
   Main.mentions y (Main.y_not_found y)).
Proof.
  intros Hplots Hopen Hlist Hsub Hbefore Hx Hy xident yident events.
  assert (length (before_subplots ++ (before ++ entry :: after) :: after_subplots)
          = S (length before_subplots + length after_subplots)) as Hlen.
  { rewrite length_app. cbn. lia. }
  assert (∀ e,
    Main.process_entry ds (0 + length before_subplots) entry
      = (Main.lookups x y, Raise e) →
    Main.main_prepare w a = (events, Raise e)) as Hmain.
  { intros e He.
    rewrite (main_prepare_loop w a ds _ tr_open (tr_before ++ Main.lookups x y) e
               Hplots Hopen Hlist); rewrite ?Hlen; try done.
    - subst events. by rewrite <- !app_assoc.
    - by apply (process_plots_raises ds 0 _ _ _ _ _ _ _ done). }
  split.
  - intros Hnone. split; [|apply x_not_found_mentions].
    apply Hmain. by apply process_entry_x_missing.
  - intros Hsome Hnone. split; [|apply y_not_found_mentions].
    apply Hmain. by apply process_entry_y_missing.
Qed.

Lemma column_not_found_aborts_witness :
  Main.main_prepare Sample.world
    (Sample.yaml_args
       [(PyStr "top",
         [({["y" := PyStr "height"]} : dict);
          ({["x" := PyStr "missing"; "y" := PyStr "height"]} : dict)])])
  = ([Main.OpenLogLoader ["log.csv"%string]; Main.Subplots 1;
      Main.FindColumn "height"; Main.FindTimestamp "height";
      Main.FindColumn "height"; Main.FindColumn "missing"],
     Raise (ValueError "failed to find x data for missing (with y of height) ")) ∧
  Main.mentions "missing" (Main.x_not_found "missing" "height") ∧
  Main.mentions "height" (Main.x_not_found "missing" "height").
Proof.
  apply (column_not_found_aborts Sample.world
           (Sample.yaml_args
              [(PyStr "top",
                [({["y" := PyStr "height"]} : dict);
                 ({["x" := PyStr "missing"; "y" := PyStr "height"]} : dict)])])
           Sample.ds [] []
           [Sample.built "timestamp" "height" {["y" := PyStr "height"]}] []
           (Sample.built "missing" "height"
              {["x" := PyStr "missing"; "y" := PyStr "height"]})
           "missing" "height" [Main.OpenLogLoader ["log.csv"%string]]
           [Main.FindColumn "height"; Main.FindTimestamp "height"]
           [Main.attach (PyStr "log.csv:timestamp") (PyStr "log.csv:height") 0
              (Sample.built "timestamp" "height" {["y" := PyStr "height"]})]);
    reflexivity.
Defined.

(** C7.  For an entry with the names [x] and [y], the x identifier is
    [find_column_timestamp_identifier(y)] when [x] is the word
    [timestamp] and [find_column_identifier(x)] otherwise; the lookups
    made are the one of [y] for the y identifier and then that one
    lookup for x; and an entry that leaves the loop body carries these
    identifiers under ['xident'] and ['yident']. *)
Theorem timestamp_x_uses_companion_lookup (ds : Main.data_source) (axis : nat)
    (entry : dict) (x y : string) :
  entry !! "x" = Some (PyStr x) →
  entry !! "y" = Some (PyStr y) →
  Main.find_identifiers ds x y =
    ([Main.FindColumn y;
      if bool_decide (x = "timestamp"%string)
      then Main.FindTimestamp y else Main.FindColumn x],
     Ok (if bool_decide (x = "timestamp"%string)
         then Main.find_column_timestamp_identifier ds y
         else Main.find_column_identifier ds x,
         Main.find_column_identifier ds y)) ∧
  ∀ (tr : list Main.event) (entry' : dict),
    Main.process_entry ds axis entry = (tr, Ok entry') →
    entry' !! "xident" =
      Some (if bool_decide (x = "timestamp"%string)
            then Main.find_column_timestamp_identifier ds y
            else Main.find_column_identifier ds x) ∧
    entry' !! "yident" = Some (Main.find_column_identifier ds y).
Proof.
  intros Hx Hy. split; [apply find_identifiers_eq|].
  intros tr entry' Hrun.
  destruct (process_entry_ok ds axis entry entry' x y tr Hx Hy Hrun) as (_ & _ & ->).
  unfold Main.attach, Main.x_identifier. by simplify_map_eq.
Qed.

Lemma timestamp_x_uses_companion_lookup_witness :
  Main.find_identifiers Sample.ds "timestamp" "height" =
    ([Main.FindColumn "height"; Main.FindTimestamp "height"],
     Ok (PyStr "log.csv:timestamp", PyStr "log.csv:height")) ∧
  Main.attach (PyStr "log.csv:timestamp") (PyStr "log.csv:height") 0
    (Sample.built "timestamp" "height" {["y" := PyStr "height"]}) !! "xident"
  = Some (PyStr "log.csv:timestamp").
Proof.
  destruct (timestamp_x_uses_companion_lookup Sample.ds 0
              (Sample.built "timestamp" "height" {["y" := PyStr "height"]})
              "timestamp" "height" eq_refl eq_refl) as [Hids Hentry].
  split; [exact Hids|].
  exact (proj1 (Hentry [Main.FindColumn "height"; Main.FindTimestamp "height"]
                  (Main.attach (PyStr "log.csv:timestamp") (PyStr "log.csv:height") 0
                     (Sample.built "timestamp" "height" {["y" := PyStr "height"]}))
                  eq_refl)).
Defined.

Section KeyFacts.
Import Builder.

(** Every entry of flat-argument mode has the keys x and y and no other. *)
Lemma arguments_loop_keys (arguments : list string) (subplots result : list (list dict)) :
  Forall (Forall (λ e : dict, dom e = ({["x"; "y"]} : gset string))) subplots →
  arguments_loop arguments subplots = Ok result →
  Forall (Forall (λ e : dict, dom e = ({["x"; "y"]} : gset string))) result.
Proof.
  revert subplots. induction arguments as [|token rest IH]; intros subplots Hall.
  - by intros [= <-].
  - cbn [arguments_loop]. case_bool_decide.
    + apply IH. apply Forall_app. split; [done|]. by repeat constructor.
    + destruct (split_pair_total token) as [xy ->]. cbn. apply IH.
      unfold append_current. apply Forall_alter; [done|].
      intros subplot _ Hsub. apply Forall_app. split; [done|].
      constructor; [|constructor]. unfold xy_entry.
      rewrite !dom_insert_L, dom_empty_L. set_solver.
Qed.

(** Every entry of declarative mode has the keys x, y, table and options. *)
Lemma yaml_entry_keys (entry e : dict) :
  yaml_entry entry = Ok e →
  dom e = ({["x"; "y"; "table"; "options"]} : gset string).
Proof.
  unfold yaml_entry. destruct (py_dict_get entry "y") as [y|]; [|discriminate].
  cbn. intros [= <-]. rewrite !dom_insert_L, dom_empty_L. set_solver.
Qed.

End KeyFacts.

Section OptionsFacts.
Import Main.
Variable ds : data_source.

Lemma check_identifiers_found (x y : string) (xident yident : pyval) :
  xident ≠ PyNone → yident ≠ PyNone →
  check_identifiers x y xident yident = ([], Ok ()).
Proof.
  intros Hx Hy. unfold check_identifiers.
  destruct xident; try done; destruct yident; done.
Qed.

Lemma apply_options_missing (axis : nat) (entry : dict) :
  entry !! "options" = None →
  apply_options axis entry = ([], Raise (KeyError "options")).
Proof. intros Hnone. unfold apply_options, py_dict_get. by rewrite Hnone. Qed.

(** An entry without the key ['options'] whose columns are both found
    ends the loop with [KeyError: 'options']. *)
Lemma process_entry_without_options (axis : nat) (entry : dict) (x y : string) :
  entry !! "x" = Some (PyStr x) → entry !! "y" = Some (PyStr y) →
  entry !! "options" = None →
  x_identifier ds x y ≠ PyNone → find_column_identifier ds y ≠ PyNone →
  process_entry ds axis entry = (lookups x y, Raise (KeyError "options")).
Proof.
  intros Hx Hy Hopt Hxi Hyi. rewrite (process_entry_names ds axis entry x y Hx Hy).
  unfold resolve_entry. rewrite (prog_bind_ok _ _ _ _ (find_identifiers_eq ds x y)).
  cbn [fst snd].
  rewrite (prog_bind_ok _ _ _ _ (check_identifiers_found x y _ _ Hxi Hyi)).
  cbn [fst snd]. rewrite (prog_bind_raise _ _ [] (KeyError "options")).
  - cbn. by rewrite ?app_nil_r.
  - apply apply_options_missing. unfold attach. by simplify_map_eq.
Qed.

End OptionsFacts.

(** C5.  The two builders do not give entries of the same shape.  For
    the one pair "a,b" flat-argument mode builds an entry with the keys
    x and y only, where declarative mode builds one with x, y, table and
    options; and on the flat-argument entry [main] ends with
    [KeyError: 'options'] at line 398, right after both columns have
    been found. *)
Theorem argument_entries_lack_options :
  Builder.create_subplots_from_arguments ["a,b"%string] =
    Ok [[Builder.xy_entry "a" "b"]] ∧
  dom (Builder.xy_entry "a" "b") = ({["x"; "y"]} : gset string) ∧
  Builder.create_subplots_from_yaml
    [(PyStr "top", [({["x" := PyStr "a"; "y" := PyStr "b"]} : dict)])] =
    Ok [[Sample.built "a" "b" {["x" := PyStr "a"; "y" := PyStr "b"]}]] ∧
  dom (Sample.built "a" "b" {["x" := PyStr "a"; "y" := PyStr "b"]}) =
    ({["x"; "y"; "table"; "options"]} : gset string) ∧
  Main.main_prepare Sample.world (Sample.pair_args ["a,b"%string]) =
    ([Main.OpenLogLoader ["log.csv"%string]; Main.Subplots 1;
      Main.FindColumn "b"; Main.FindColumn "a"],
     Raise (KeyError "options")).
Proof.
  split; [reflexivity|]. split.
  { unfold Builder.xy_entry. rewrite !dom_insert_L, dom_empty_L. set_solver. }
  split; [reflexivity|]. split; [|reflexivity].
  unfold Sample.built. rewrite !dom_insert_L, dom_empty_L. set_solver.
Qed.

(** ** [gather_new_data] *)

Section GatherFacts.
Import Gather.
Variable ds : Main.data_source.
Variable animate : bool.

Lemma only_data_written_refl (h : heap) : only_data_written h h.
Proof.
  intros loc. destruct (h !! loc) as [[d|l]|]; eauto.
Qed.

Lemma only_data_written_trans (h1 h2 h3 : heap) :
  only_data_written h1 h2 → only_data_written h2 h3 → only_data_written h1 h3.
Proof.
  intros H12 H23 loc. specialize (H12 loc). specialize (H23 loc).
  destruct (h1 !! loc) as [[d|l]|].
  - destruct H12 as (d2 & Hd2 & Hkeep2). rewrite Hd2 in H23.
    destruct H23 as (d3 & Hd3 & Hkeep3). exists d3. split; [done|].
    intros key Hkey. by rewrite Hkeep3, Hkeep2.
  - by rewrite H12 in H23.
  - by rewrite H12 in H23.
Qed.

(** The loop body writes ['data'] of its own entry and nothing else. *)
Lemma gather_entry_frame (plot_entry : nat) (h : heap) :
  only_data_written h (gather_entry ds animate plot_entry h).1.
Proof.
  unfold gather_entry.
  destruct (h !! plot_entry) as [[d|l]|] eqn:Hentry;
    try apply only_data_written_refl.
  destruct (gather_call ds animate d) as [data|e];
    [|apply only_data_written_refl].
  intros loc. cbn. destruct (decide (loc = plot_entry)) as [->|Hne].
  - rewrite Hentry, lookup_insert_eq. eexists. split; [done|].
    intros key Hkey. by rewrite lookup_insert_ne.
  - rewrite lookup_insert_ne by done. destruct (h !! loc) as [[d0|l0]|]; eauto.
Qed.

(** More fuel does not change how a finished loop ended. *)
Lemma gather_loop_more_fuel (fuel extra plot_info i : nat) (h : heap)
    (out : heap * result ()) :
  gather_loop ds animate fuel plot_info i h = Some out →
  gather_loop ds animate (fuel + extra) plot_info i h = Some out.
Proof.
  revert i h. induction fuel as [|fuel IH]; intros i h; [discriminate|].
  cbn [gather_loop Nat.add].
  destruct (h !! plot_info) as [[d|l]|]; [done| |done].
  destruct (l !! i) as [plot_entry|]; [|done].
  destruct (gather_entry ds animate plot_entry h) as [h' [u|e]]; [apply IH|done].
Qed.

(** The loop over a list object ends once the iterator has passed the
    end of the list, and has by then written only ['data'] fields. *)
Lemma gather_loop_frame (fuel plot_info i : nat) (h : heap) (l : list nat) :
  h !! plot_info = Some (OList l) →
  (i ≤ length l < i + fuel)%nat →
  ∃ h' r, gather_loop ds animate fuel plot_info i h = Some (h', r) ∧
          only_data_written h h'.
Proof.
  revert i h. induction fuel as [|fuel IH]; intros i h Hlist Hfuel; [lia|].
  cbn [gather_loop]. rewrite Hlist.
  destruct (l !! i) as [plot_entry|] eqn:Hi.
  - pose proof (gather_entry_frame plot_entry h) as Hframe.
    destruct (gather_entry ds animate plot_entry h) as [h1 [u|e]]; cbn in Hframe.
    + pose proof (Hframe plot_info) as Hsame. rewrite Hlist in Hsame.
      apply lookup_lt_Some in Hi.
      destruct (IH (S i) h1 Hsame ltac:(lia)) as (h' & r & Hrun & Hframe').
      exists h', r. split; [done|]. by eapply only_data_written_trans.
    + eauto.
  - eauto using only_data_written_refl.
Qed.

End GatherFacts.

(** C9.  From every store and for either mode flag, [gather_new_data]
    ends within [turns] turns of its loop, normally or with an
    exception, and more fuel changes nothing.  In the store it leaves,
    the same objects exist, every list, [plot_info] among them, has the
    elements it had, and every dictionary has its old value under every
    key other than ['data']. *)
Theorem gather_new_data_writes_only_data (ds : Main.data_source) (animate : bool)
    (plot_info : nat) (h : Gather.heap) :
  ∃ (h' : Gather.heap) (r : result ()),
    (∀ extra : nat,
       Gather.gather_new_data ds animate (Gather.turns plot_info h + extra) plot_info h
       = Some (h', r)) ∧
    Gather.only_data_written h h' ∧
    dom h' = dom h ∧
    h' !! plot_info = h !! plot_info.
Proof.
  assert (∃ h' r,
            Gather.gather_new_data ds animate (Gather.turns plot_info h) plot_info h
            = Some (h', r) ∧ Gather.only_data_written h h') as (h' & r & Hrun & Hframe).
  { unfold Gather.gather_new_data, Gather.turns.
    destruct (h !! plot_info) as [[d|l]|] eqn:Hlist.
    - cbn. rewrite Hlist. case_bool_decide; eauto using only_data_written_refl.
    - eapply gather_loop_frame; [done|lia].
    - cbn. rewrite Hlist. eauto using only_data_written_refl. }
  exists h', r. split; [|split; [done|split]].
  - intros extra. by apply gather_loop_more_fuel.
  - apply set_eq. intros loc. rewrite !elem_of_dom.
    specialize (Hframe loc). destruct (h !! loc) as [[d|l]|] eqn:Hloc.
    + destruct Hframe as (d' & -> & _). by split; eauto.
    + rewrite Hframe. by split; eauto.
    + rewrite Hframe. by split; intros [? ?].
  - unfold Gather.turns in Hrun. specialize (Hframe plot_info).
    destruct (h !! plot_info) as [[d|l]|] eqn:Hlist; [|done|done].
    unfold Gather.gather_new_data in Hrun. cbn in Hrun. rewrite Hlist in Hrun.
    by case_bool_decide; injection Hrun as <- _.
Qed.

(** A run on a store with one list and one entry: the call returns and
    the entry has its gathered data. *)
Example gather_new_data_sample :
  Gather.gather_new_data Sample.ds false 2 1
    (<[1%nat := Gather.OList [0%nat]]>
       ({[0%nat := Gather.ODict
                     (Main.attach (PyStr "t") (PyStr "h") 0
                        (Sample.built "timestamp" "height" ∅))]} : Gather.heap))
  = Some (<[1%nat := Gather.OList [0%nat]]>
            {[0%nat := Gather.ODict
                         (<["data" := PyList [PyStr "t"; PyStr "h"]]>
                            (Main.attach (PyStr "t") (PyStr "h") 0
                               (Sample.built "timestamp" "height" ∅)))]},
          Ok ()).
Proof. reflexivity. Qed.

(** ** More on the search of [mark_xdata] *)

Section SearchMore.
Import MarkSearch.

(** A successful read returns a sample of the list. *)
Lemma py_getitem_elem {A : Type} (l : list A) (i : Z) (a : A) :
  py_getitem l i = Ok a →
  a ∈ l ∧ - Z.of_nat (length l) <= i < Z.of_nat (length l).
Proof.
  unfold py_getitem. cbv zeta.
  destruct (Z.ltb_spec i 0);
    (match goal with
     | |- context [if ?b then _ else _] => destruct b eqn:Hb
     end; [|discriminate]);
    apply andb_true_iff in Hb as [H1 H2];
    apply Z.leb_le in H1; apply Z.ltb_lt in H2;
    (match goal with
     | |- context [?m !! ?j] => destruct (m !! j) eqn:Hj
     end; [|discriminate]);
    intros [= <-]; (split; [by eapply list_elem_of_lookup_2 | lia]).
Qed.

(** A failed read is an [IndexError]. *)
Lemma py_getitem_raises {A : Type} (l : list A) (i : Z) (e : exn) :
  py_getitem l i = Raise e → e = IndexError.
Proof.
  unfold py_getitem. cbv zeta.
  repeat match goal with
         | |- context [if ?b then _ else _] => destruct b
         | |- context [?m !! ?j] => destruct (m !! j)
         end; congruence.
Qed.

(** A read below [-len] or from [len] on fails. *)
Lemma py_getitem_outside {A : Type} (l : list A) (i : Z) :
  i < - Z.of_nat (length l) ∨ Z.of_nat (length l) <= i →
  py_getitem l i = Raise IndexError.
Proof.
  intros Hi. destruct (py_getitem l i) as [a|e] eqn:Hread.
  - apply py_getitem_elem in Hread. lia.
  - by apply py_getitem_raises in Hread as ->.
Qed.

Lemma in_bracket_true (t : list Q) (x : Q) (i : Z) :
  in_bracket t x i = Ok true →
  ∃ lo hi, py_getitem t i = Ok lo ∧ py_getitem t (i + 1) = Ok hi ∧
           (lo <= x)%Q ∧ (x < hi)%Q.
Proof.
  unfold in_bracket. destruct (py_getitem t i) as [lo|]; [|discriminate]. cbn.
  destruct (Qle_bool lo x) eqn:Hlo; [|discriminate].
  destruct (py_getitem t (i + 1)) as [hi|]; [|discriminate]. cbn.
  intros [= Hhi]. exists lo, hi.
  apply Qle_bool_iff in Hlo. apply Qlt_bool_iff in Hhi. done.
Qed.

Lemma search_turn_break (t : list Q) (x : Q) (i d r : Z) :
  search_turn t x i d = Ok (Break r) → r = i ∧ in_bracket t x i = Ok true.
Proof.
  unfold search_turn. destruct (in_bracket t x i) as [[|]|]; cbn; try discriminate.
  - by intros [= <-].
  - destruct (py_getitem t (i + 1)) as [hi|]; cbn; [|discriminate].
    by destruct (Qle_bool hi x).
Qed.

Lemma search_loop_sound (fuel : nat) (t : list Q) (x : Q) (i d r : Z) :
  search_loop fuel t x i d = Some (Ok r) → in_bracket t x r = Ok true.
Proof.
  revert i d. induction fuel as [|fuel IH]; intros i d; [discriminate|].
  cbn [search_loop].
  destruct (search_turn t x i d) as [[j|i' d']|e] eqn:Hturn.
  - intros [= <-]. by apply search_turn_break in Hturn as [-> ?].
  - apply IH.
  - discriminate.
Qed.

Lemma halve_positive (d : Z) : 0 <= d → 1 <= halve d.
Proof.
  intros Hd. unfold halve. rewrite Z.quot_div_nonneg by lia.
  pose proof (Z.div_pos d 2 Hd ltac:(lia)).
  destruct (Z.eqb_spec (d / 2) 0); lia.
Qed.

Lemma forallb_elem (P : Q → bool) (t : list Q) (a : Q) :
  forallb P t = true → a ∈ t → P a = true.
Proof.
  intros Hall Hin. apply list_elem_of_In in Hin.
  by apply (proj1 (forallb_forall P t) Hall).
Qed.

(** With no sample above the target, a turn raises or jumps right. *)
Lemma search_turn_all_below (t : list Q) (x : Q) (i d : Z) :
  forallb (λ s, Qle_bool s x) t = true →
  search_turn t x i d = Raise IndexError ∨
  (i < Z.of_nat (length t) ∧
   search_turn t x i d = Ok (Again (i + halve d) (halve d))).
Proof.
  intros Hall. unfold search_turn, in_bracket.
  destruct (py_getitem t i) as [lo|e] eqn:Hlo; cbn;
    [|apply py_getitem_raises in Hlo as ->; auto].
  apply py_getitem_elem in Hlo as [Hlo Hi].
  rewrite (forallb_elem _ _ _ Hall Hlo).
  destruct (py_getitem t (i + 1)) as [hi|e] eqn:Hhi; cbn;
    [|apply py_getitem_raises in Hhi as ->; auto].
  apply py_getitem_elem in Hhi as [Hhi _].
  pose proof (forallb_elem _ _ _ Hall Hhi) as Hle. cbn in Hle.
  unfold Qlt_bool. rewrite Hle. cbn. right. split; [lia|done].
Qed.

Lemma search_loop_all_below (fuel : nat) (t : list Q) (x : Q) (i d : Z) :
  forallb (λ s, Qle_bool s x) t = true → 0 <= d →
  0 < Z.of_nat fuel → Z.of_nat (length t) - i < Z.of_nat fuel →
  search_loop fuel t x i d = Some (Raise IndexError).
Proof.
  intros Hall. revert i d.
  induction fuel as [|fuel IH]; intros i d Hd Hpos Hfuel; [lia|].
  cbn [search_loop].
  destruct (search_turn_all_below t x i d Hall) as [-> | [Hi Hjump]]; [done|].
  rewrite Hjump. pose proof (halve_positive d Hd).
  apply IH; lia.
Qed.

(** With every sample above the target, a turn raises or jumps left. *)
Lemma search_turn_all_above (t : list Q) (x : Q) (i d : Z) :
  forallb (λ s, Qlt_bool x s) t = true →
  search_turn t x i d = Raise IndexError ∨
  (- Z.of_nat (length t) <= i ∧
   search_turn t x i d = Ok (Again (i - halve d) (halve d))).
Proof.
  intros Hall. unfold search_turn, in_bracket.
  destruct (py_getitem t i) as [lo|e] eqn:Hlo; cbn;
    [|apply py_getitem_raises in Hlo as ->; auto].
  apply py_getitem_elem in Hlo as [Hlo Hi].
  pose proof (forallb_elem _ _ _ Hall Hlo) as Hlt. cbn in Hlt.
  unfold Qlt_bool in Hlt. apply negb_true_iff in Hlt. rewrite Hlt. cbn.
  destruct (py_getitem t (i + 1)) as [hi|e] eqn:Hhi; cbn;
    [|apply py_getitem_raises in Hhi as ->; auto].
  apply py_getitem_elem in Hhi as [Hhi _].
  pose proof (forallb_elem _ _ _ Hall Hhi) as Hlt'. cbn in Hlt'.
  unfold Qlt_bool in Hlt'. apply negb_true_iff in Hlt'. rewrite Hlt'.
  right. split; [lia|done].
Qed.

Lemma search_loop_all_above (fuel : nat) (t : list Q) (x : Q) (i d : Z) :
  forallb (λ s, Qlt_bool x s) t = true → 0 <= d →
  0 < Z.of_nat fuel → i + Z.of_nat (length t) + 1 < Z.of_nat fuel →
  search_loop fuel t x i d = Some (Raise IndexError).
Proof.
  intros Hall. revert i d.
  induction fuel as [|fuel IH]; intros i d Hd Hpos Hfuel; [lia|].
  cbn [search_loop].
  destruct (search_turn_all_above t x i d Hall) as [-> | [Hi Hjump]]; [done|].
  rewrite Hjump. pose proof (halve_positive d Hd).
  apply IH; lia.
Qed.

End SearchMore.

(** Whatever index the search returns brackets the target: both reads
    of line 237 succeed there and [t[i] <= x < t[i+1]] holds.  This
    needs no order on the array and holds for every amount of fuel. *)
Theorem mark_xdata_search_sound (fuel : nat) (t : list Q) (x : Q) (i : Z) :
  MarkSearch.mark_xdata_search fuel t x = Some (Ok i) →
  ∃ lo hi : Q,
    py_getitem t i = Ok lo ∧ py_getitem t (i + 1) = Ok hi ∧
    (lo <= x)%Q ∧ (x < hi)%Q.
Proof.
  intros Hrun. apply in_bracket_true.
  by apply (search_loop_sound fuel t x _ _ i Hrun).
Qed.

Lemma mark_xdata_search_sound_witness :
  ∃ lo hi : Q,
    py_getitem [0; 1; 2; 3; 4]%Q 2 = Ok lo ∧
    py_getitem [0; 1; 2; 3; 4]%Q (2 + 1) = Ok hi ∧
    (lo <= 2.3)%Q ∧ (2.3 < hi)%Q.
Proof.
  apply (mark_xdata_search_sound 1 [0; 1; 2; 3; 4]%Q 2.3 2). reflexivity.
Defined.

(** When no sample is above the target, so for every target at or
    beyond the last sample of an increasing array and for every target
    on an empty array, the search raises [IndexError] within
    [len(t) + 1] turns. *)
Theorem mark_xdata_search_beyond_end_raises (t : list Q) (x : Q) (extra : nat) :
  forallb (λ s, Qle_bool s x) t = true →
  MarkSearch.mark_xdata_search (length t + 1 + extra) t x = Some (Raise IndexError).
Proof.
  intros Hall. unfold MarkSearch.mark_xdata_search, MarkSearch.start_index.
  rewrite Z.quot_div_nonneg by lia.
  pose proof (Z.div_pos (Z.of_nat (length t)) 2 ltac:(lia) ltac:(lia)).
  apply search_loop_all_below; try done; lia.
Qed.

Lemma mark_xdata_search_beyond_end_raises_witness :
  MarkSearch.mark_xdata_search (5 + 1 + 0) [0; 1; 2; 3; 4]%Q 4 = Some (Raise IndexError).
Proof.
  apply (mark_xdata_search_beyond_end_raises [0; 1; 2; 3; 4]%Q 4 0). reflexivity.
Defined.

(** When every sample is above the target, so for every target before
    the first sample of an increasing array, the search raises
    [IndexError] within [2 * len(t) + 2] turns. *)
Theorem mark_xdata_search_before_start_raises (t : list Q) (x : Q) (extra : nat) :
  forallb (λ s, Qlt_bool x s) t = true →
  MarkSearch.mark_xdata_search (2 * length t + 2 + extra) t x = Some (Raise IndexError).
Proof.
  intros Hall. unfold MarkSearch.mark_xdata_search, MarkSearch.start_index.
  rewrite Z.quot_div_nonneg by lia.
  pose proof (Z.div_pos (Z.of_nat (length t)) 2 ltac:(lia) ltac:(lia)).
  pose proof (Z.div_le_upper_bound (Z.of_nat (length t)) 2 (Z.of_nat (length t))
                ltac:(lia) ltac:(lia)).
  apply search_loop_all_above; try done; lia.
Qed.

Lemma mark_xdata_search_before_start_raises_witness :
  MarkSearch.mark_xdata_search (2 * 3 + 2 + 0) [5; 6; 7]%Q 4.5 = Some (Raise IndexError).
Proof.
  apply (mark_xdata_search_before_start_raises [5; 6; 7]%Q 4.5 0). reflexivity.
Defined.

(** ** More on [mark_xdata] and on the marker-column scan *)

Section MarkMore.
Import Marker.

Lemma markable_spec (fuel : nat) (x : Q) (pd : pair_data) :
  Extra.markable fuel x pd = true →
  MarkSearch.strictly_increasing (pd_t pd) = true ∧
  MarkSearch.within_range (pd_t pd) x = true ∧
  (3 ≤ length (pd_t pd))%nat ∧
  (length (pd_t pd) ≤ length (pd_x pd))%nat ∧
  (length (pd_t pd) ≤ length (pd_y pd))%nat ∧
  (2 * length (pd_t pd) < fuel)%nat.
Proof.
  unfold Extra.markable. rewrite !andb_true_iff.
  rewrite !Nat.leb_le, Nat.ltb_lt. tauto.
Qed.

(** One markable pair is marked on its bracketing sample. *)
Lemma mark_pair (fuel : nat) (x : Q) (marker : string) (pd : pair_data) :
  Extra.markable fuel x pd = true →
  ∃ (i : nat) (m : scatter),
    MarkSearch.mark_xdata_search fuel (pd_t pd) x = Some (Ok (Z.of_nat i)) ∧
    mark_time pd (Z.of_nat i) marker = Ok m ∧
    Extra.marks_bracket x marker pd m.
Proof.
  intros Hok. apply markable_spec in Hok as (Hinc & Hrange & H3 & Hx & Hy & Hfuel).
  destruct (brackets_exists _ _ Hrange) as [i Hi]. exists i.
  pose proof Hi as Hin. apply brackets_spec in Hin as (lo & hi & _ & Hhi & _).
  apply lookup_lt_Some in Hhi.
  destruct (lookup_lt_is_Some_2 (pd_x pd) i ltac:(lia)) as [xi Hxi].
  destruct (lookup_lt_is_Some_2 (pd_y pd) i ltac:(lia)) as [yi Hyi].
  eexists. split; [by apply mark_xdata_search_converges|].
  unfold mark_time.
  rewrite (py_getitem_inside _ _ _ Hxi), (py_getitem_inside _ _ _ Hyi). cbn.
  split; [done|]. by exists i, xi, yi.
Qed.

Lemma mark_xdata_all (fuel : nat) (x : Q) (marker : string)
    (plot_pair_data : list (string * pair_data)) :
  forallb (λ p, Extra.markable fuel x p.2) plot_pair_data = true →
  ∃ ms, mark_xdata fuel plot_pair_data x marker = Some (ms, Ok ()) ∧
        Forall2 (λ p m, Extra.marks_bracket x marker p.2 m) plot_pair_data ms.
Proof.
  induction plot_pair_data as [|[k pd] rest IH]; intros Hall.
  - exists []. by split; [|constructor].
  - cbn [forallb] in Hall. apply andb_true_iff in Hall as [Hpd Hrest].
    destruct (mark_pair fuel x marker pd Hpd) as (i & m & Hsearch & Hmark & Hm).
    destruct (IH Hrest) as (ms & Hrun & Hms).
    exists (m :: ms). cbn [mark_xdata]. rewrite Hsearch, Hmark, Hrun.
    split; [done|]. by constructor.
Qed.

Lemma mark_xdata_stops (fuel : nat) (x : Q) (marker : string)
    (before after : list (string * pair_data)) (k : string) (pd : pair_data)
    (ms : list scatter) (e : exn) :
  mark_xdata fuel before x marker = Some (ms, Ok ()) →
  MarkSearch.mark_xdata_search fuel (pd_t pd) x = Some (Raise e) →
  mark_xdata fuel (before ++ (k, pd) :: after) x marker = Some (ms, Raise e).
Proof.
  revert ms. induction before as [|[k' pd'] before IH]; intros ms Hbefore Hsearch.
  - injection Hbefore as <-. cbn [app mark_xdata]. by rewrite Hsearch.
  - cbn [app mark_xdata] in *.
    destruct (MarkSearch.mark_xdata_search fuel (pd_t pd') x) as [[i|]|]; try done.
    destruct (mark_time pd' i marker) as [m|]; try done.
    destruct (mark_xdata fuel before x marker) as [[ms' [[]|]]|]; try done.
    injection Hbefore as <-. by rewrite (IH ms' eq_refl Hsearch).
Qed.

End MarkMore.

(** [mark_xdata] marks every graph: when every pair of [plot_pair_data]
    has three or more strictly increasing time samples around [x] and x
    and y arrays of that length, the call returns having painted one
    marker per pair, in the order of the pairs, each on the pair's own
    axis at the sample whose bracket holds [x]. *)
Theorem mark_xdata_marks_every_pair (fuel : nat) (x : Q) (marker : string)
    (plot_pair_data : list (string * Marker.pair_data)) :
  forallb (λ p, Extra.markable fuel x p.2) plot_pair_data = true →
  ∃ ms : list Marker.scatter,
    Marker.mark_xdata fuel plot_pair_data x marker = Some (ms, Ok ()) ∧
    Forall2 (λ p m, Extra.marks_bracket x marker p.2 m) plot_pair_data ms.
Proof. apply mark_xdata_all. Qed.

Lemma mark_xdata_marks_every_pair_witness :
  ∃ ms : list Marker.scatter,
    Marker.mark_xdata 11
      [("slow"%string,
        {| Marker.pd_x := [0; 10; 20]%Q; Marker.pd_y := [5; 6; 7]%Q;
           Marker.pd_t := [0; 10; 20]%Q; Marker.pd_axis := 0 |});
       ("fast"%string,
        {| Marker.pd_x := [1; 2; 3; 4; 5]%Q; Marker.pd_y := [0; 1; 0; 1; 0]%Q;
           Marker.pd_t := [0; 1; 2; 3; 4]%Q; Marker.pd_axis := 1 |})]
      2.5 "x" = Some (ms, Ok ()) ∧
    Forall2 (λ p m, Extra.marks_bracket 2.5 "x" p.2 m)
      [("slow"%string,
        {| Marker.pd_x := [0; 10; 20]%Q; Marker.pd_y := [5; 6; 7]%Q;
           Marker.pd_t := [0; 10; 20]%Q; Marker.pd_axis := 0 |});
       ("fast"%string,
        {| Marker.pd_x := [1; 2; 3; 4; 5]%Q; Marker.pd_y := [0; 1; 0; 1; 0]%Q;
           Marker.pd_t := [0; 1; 2; 3; 4]%Q; Marker.pd_axis := 1 |})]
      ms.
Proof.
  apply (mark_xdata_marks_every_pair 11 2.5 "x"). reflexivity.
Defined.

(** [mark_xdata] stops at the first pair whose search raises: the pairs
    before it have their markers, the exception leaves the call, and
    the pairs after it are not looked at. *)
Theorem mark_xdata_stops_at_first_failure (fuel : nat) (x : Q) (marker : string)
    (before after : list (string * Marker.pair_data)) (k : string)
    (pd : Marker.pair_data) (ms : list Marker.scatter) (e : exn) :
  Marker.mark_xdata fuel before x marker = Some (ms, Ok ()) →
  MarkSearch.mark_xdata_search fuel (Marker.pd_t pd) x = Some (Raise e) →
  Marker.mark_xdata fuel (before ++ (k, pd) :: after) x marker = Some (ms, Raise e).
Proof. apply mark_xdata_stops. Qed.

Lemma mark_xdata_stops_at_first_failure_witness :
  Marker.mark_xdata 7
    ([("a"%string,
       {| Marker.pd_x := [0; 1; 2]%Q; Marker.pd_y := [5; 6; 7]%Q;
          Marker.pd_t := [0; 1; 2]%Q; Marker.pd_axis := 0 |})] ++
     ("b"%string,
      {| Marker.pd_x := [0; 1]%Q; Marker.pd_y := [5; 6]%Q;
         Marker.pd_t := [0; 1]%Q; Marker.pd_axis := 1 |}) ::
     [("c"%string,
       {| Marker.pd_x := [0; 1; 2]%Q; Marker.pd_y := [5; 6; 7]%Q;
          Marker.pd_t := [0; 1; 2]%Q; Marker.pd_axis := 2 |})])
    0.5 "x"
  = Some ([{| Marker.sc_axis := 0; Marker.sc_x := 0; Marker.sc_y := 5;
              Marker.sc_marker := "x" |}], Raise IndexError).
Proof.
  apply (mark_xdata_stops_at_first_failure 7 0.5 "x"); reflexivity.
Defined.

Section ScanMore.
Import Marker.
Variable mark_xdata_call : Q → result ().
Variables (xs ys : list Q) (threshold : Q).

(** A turn that returns has followed the rising-edge rule, whatever the
    x array and the calls of [mark_xdata] are like. *)
Lemma scan_turn_returns (st st' : scan_state) (i : nat) :
  (i < length ys)%nat →
  is_low st = below_before ys threshold i →
  scan_turn mark_xdata_call xs ys threshold st i = Ok st' →
  st' = {| is_low := below_before ys threshold (S i);
           crossings := crossings st ++
                        (if is_crossing ys threshold i then [i] else []) |}.
Proof.
  intros Hi Hlow.
  destruct (lookup_lt_is_Some_2 ys i Hi) as [y Hy].
  unfold scan_turn, is_crossing. cbn [below_before].
  rewrite Hy, <- Hlow. rewrite (py_getitem_inside ys i y Hy).
  destruct st as [low cs]. cbn [is_low crossings].
  destruct low; cbn.
  - destruct (Qlt_bool threshold y) eqn:Hrise; cbn.
    + destruct (py_getitem xs (Z.of_nat i)) as [xi|]; cbn; [|discriminate].
      destruct (mark_xdata_call xi) as [[]|]; cbn; [|discriminate].
      by intros [= <-].
    + rewrite app_nil_r. destruct (Qlt_bool y threshold); by intros [= <-].
  - rewrite app_nil_r. destruct (Qlt_bool y threshold); by intros [= <-].
Qed.

Lemma scan_loop_returns (m j : nat) (st st' : scan_state) :
  (j + m = length ys)%nat →
  is_low st = below_before ys threshold j →
  scan_loop mark_xdata_call xs ys threshold (seq j m) st = Ok st' →
  st' = {| is_low := below_before ys threshold (j + m);
           crossings := crossings st ++
                        filter (λ k, is_crossing ys threshold k = true) (seq j m) |}.
Proof.
  revert j st. induction m as [|m IH]; intros j st Hlen Hlow.
  - cbn. intros [= <-]. rewrite Nat.add_0_r, app_nil_r, <- Hlow. by destruct st.
  - cbn [seq scan_loop].
    destruct (scan_turn mark_xdata_call xs ys threshold st j) as [st1|] eqn:Hturn;
      [|discriminate].
    apply scan_turn_returns in Hturn; [|lia|done]. subst st1. cbn.
    intros Hrun. apply IH in Hrun; [|lia|done]. subst st'.
    cbn [is_low crossings]. rewrite <- app_assoc, Nat.add_succ_r. cbn [Nat.add].
    f_equal. f_equal.
    destruct (is_crossing ys threshold j); by case_decide.
Qed.

Lemma scan_returns (st : scan_state) :
  scan mark_xdata_call xs ys threshold = Ok st →
  crossings st = detect_crossings ys threshold.
Proof.
  unfold scan. intros Hrun.
  by apply (scan_loop_returns (length ys) 0) in Hrun as ->.
Qed.

(** Over samples none of which is above the threshold the scan neither
    calls [mark_xdata] nor reads the x array. *)
Lemma scan_loop_quiet (indices : list nat) (st : scan_state) :
  forallb (λ y, Qle_bool y threshold) ys = true →
  Forall (λ i, (i < length ys)%nat) indices →
  ∃ st', scan_loop mark_xdata_call xs ys threshold indices st = Ok st' ∧
         crossings st' = crossings st.
Proof.
  intros Hall Hin. revert st.
  induction Hin as [|i indices Hi _ IH]; intros st; [by exists st|].
  destruct (lookup_lt_is_Some_2 ys i Hi) as [y Hy].
  assert (Qlt_bool threshold y = false) as Hnot.
  { unfold Qlt_bool. apply negb_false_iff.
    apply (forallb_elem (λ y, Qle_bool y threshold) ys); [done|].
    by eapply list_elem_of_lookup_2. }
  assert (∃ st1, scan_turn mark_xdata_call xs ys threshold st i = Ok st1 ∧
                 crossings st1 = crossings st) as (st1 & Hturn & Hsame).
  { unfold scan_turn. rewrite (py_getitem_inside ys i y Hy). cbn. rewrite Hnot.
    destruct (is_low st); cbn; destruct (Qlt_bool y threshold); eauto. }
  cbn [scan_loop]. rewrite Hturn. cbn.
  destruct (IH st1) as (st' & Hrun & Hcs).
  exists st'. split; [done|]. by rewrite Hcs.
Qed.

End ScanMore.

Section CrossingFacts.
Import Marker.
Variables (ys : list Q) (threshold : Q).

Lemma elem_of_detect_crossings (k : nat) :
  k ∈ detect_crossings ys threshold ↔ is_crossing ys threshold k = true.
Proof.
  unfold detect_crossings. rewrite list_elem_of_filter, elem_of_seq.
  split; [tauto|]. intros Hk. split; [done|].
  unfold is_crossing in Hk. destruct (ys !! k) eqn:Hy; [|discriminate].
  apply lookup_lt_Some in Hy. lia.
Qed.

Lemma is_crossing_spec (k : nat) :
  is_crossing ys threshold k = true ↔
  ∃ y, ys !! k = Some y ∧ below_before ys threshold k = true ∧ (threshold < y)%Q.
Proof.
  unfold is_crossing. destruct (ys !! k) as [y|].
  - rewrite andb_true_iff, Qlt_bool_iff. split.
    + intros [? ?]. eauto.
    + intros (y' & [= <-] & ? & ?). done.
  - split; [discriminate|]. by intros (? & ? & _).
Qed.

(** The flag is down right after a crossing. *)
Lemma below_before_after_crossing (k : nat) :
  is_crossing ys threshold k = true → below_before ys threshold (S k) = false.
Proof.
  unfold is_crossing. cbn [below_before].
  destruct (ys !! k) as [y|]; [|discriminate]. by intros ->.
Qed.

(** The flag only comes up again at a sample strictly below the
    threshold. *)
Lemma below_before_rearmed (k1 k2 : nat) :
  (k1 ≤ k2)%nat →
  below_before ys threshold k1 = false → below_before ys threshold k2 = true →
  ∃ j y, (k1 ≤ j < k2)%nat ∧ ys !! j = Some y ∧ (y < threshold)%Q.
Proof.
  induction k2 as [|k2 IH]; intros Hle Hdown Hup.
  - assert (k1 = 0)%nat as -> by lia. cbn in Hdown. discriminate.
  - destruct (decide (k1 = S k2)) as [->|Hne]; [congruence|].
    cbn [below_before] in Hup.
    destruct (ys !! k2) as [y|] eqn:Hy.
    + destruct (below_before ys threshold k2 && Qlt_bool threshold y);
        [discriminate|].
      destruct (Qlt_bool y threshold) eqn:Hlow.
      * exists k2, y. apply Qlt_bool_iff in Hlow. split; [lia|done].
      * destruct (IH ltac:(lia) Hdown Hup) as (j & y' & ? & ? & ?).
        exists j, y'. split; [lia|done].
    + destruct (IH ltac:(lia) Hdown Hup) as (j & y' & ? & ? & ?).
      exists j, y'. split; [lia|done].
Qed.

(** A filtered [seq] lists its numbers in increasing order. *)
Lemma filter_seq_increasing (P : nat → Prop) `{!∀ k, Decision (P k)}
    (j m i1 i2 a b : nat) :
  filter P (seq j m) !! i1 = Some a → filter P (seq j m) !! i2 = Some b →
  (i1 < i2)%nat → (a < b)%nat.
Proof.
  revert j i1 i2. induction m as [|m IH]; intros j i1 i2; [done|].
  cbn [seq]. rewrite filter_cons. case_decide.
  - destruct i2 as [|i2]; [lia|]. destruct i1 as [|i1].
    + cbn. intros [= <-] Hb _.
      assert (b ∈ filter P (seq (S j) m)) as Hin by (by eapply list_elem_of_lookup_2).
      apply list_elem_of_filter in Hin as [_ Hin]. apply elem_of_seq in Hin. lia.
    + cbn. intros Ha Hb Hlt. eapply (IH (S j) i1 i2); eauto. lia.
  - apply IH.
Qed.

End CrossingFacts.

(** What a scan that returns has reported, whatever the x array and the
    calls of [mark_xdata] are like: the indices come in increasing
    order, each is a sample strictly above the threshold, and between
    any two of them lies a sample strictly below the threshold, so a run
    of samples at or above the threshold is reported at most once. *)
Theorem marker_scan_reports_separate_rises (mark_xdata_call : Q → result ())
    (plot_pair_data : list (string * Marker.pair_data)) (column : string)
    (threshold : Q) (cs : list nat) :
  Marker.marker_scan mark_xdata_call plot_pair_data column threshold = Ok cs →
  ∃ pd : Marker.pair_data,
    Marker.pair_data_get plot_pair_data column = Ok pd ∧
    (∀ i j a b : nat, cs !! i = Some a → cs !! j = Some b → (i < j)%nat → (a < b)%nat) ∧
    (∀ k : nat, k ∈ cs → ∃ y, Marker.pd_y pd !! k = Some y ∧ (threshold < y)%Q) ∧
    (∀ a b : nat, a ∈ cs → b ∈ cs → (a < b)%nat →
       ∃ j y, (a < j < b)%nat ∧ Marker.pd_y pd !! j = Some y ∧ (y < threshold)%Q).
Proof.
  unfold Marker.marker_scan.
  destruct (Marker.pair_data_get plot_pair_data column) as [pd|]; [|discriminate].
  cbn. destruct (Marker.scan _ _ _ _) as [st|] eqn:Hscan; [|discriminate].
  cbn. intros [= <-]. apply scan_returns in Hscan. rewrite Hscan.
  exists pd. split; [done|]. split; [|split].
  - intros i j a b. apply filter_seq_increasing.
  - intros k Hk. apply elem_of_detect_crossings, is_crossing_spec in Hk.
    destruct Hk as (y & ? & _ & ?). eauto.
  - intros a b Ha Hb Hlt.
    apply elem_of_detect_crossings in Ha, Hb.
    apply below_before_after_crossing in Ha.
    apply is_crossing_spec in Hb as (y & _ & Hup & _).
    destruct (below_before_rearmed _ _ (S a) b ltac:(lia) Ha Hup) as (j & y' & ? & ? & ?).
    exists j, y'. split; [lia|done].
Qed.

Lemma marker_scan_reports_separate_rises_witness :
  ∃ pd : Marker.pair_data,
    Marker.pair_data_get
      [("button1"%string,
        {| Marker.pd_x := [0; 1; 2; 3; 4]%Q;
           Marker.pd_y := [0.1; 0.6; 0.4; 0.7; 0.3]%Q;
           Marker.pd_t := [0; 1; 2; 3; 4]%Q; Marker.pd_axis := 0 |})]
      "button1" = Ok pd ∧
    (∀ i j a b : nat, [1; 3]%nat !! i = Some a → [1; 3]%nat !! j = Some b →
                      (i < j)%nat → (a < b)%nat) ∧
    (∀ k : nat, k ∈ [1; 3]%nat → ∃ y, Marker.pd_y pd !! k = Some y ∧ (0.5 < y)%Q) ∧
    (∀ a b : nat, a ∈ [1; 3]%nat → b ∈ [1; 3]%nat → (a < b)%nat →
       ∃ j y, (a < j < b)%nat ∧ Marker.pd_y pd !! j = Some y ∧ (y < 0.5)%Q).
Proof.
  apply (marker_scan_reports_separate_rises (λ _, Ok ())
           [("button1"%string,
             {| Marker.pd_x := [0; 1; 2; 3; 4]%Q;
                Marker.pd_y := [0.1; 0.6; 0.4; 0.7; 0.3]%Q;
                Marker.pd_t := [0; 1; 2; 3; 4]%Q; Marker.pd_axis := 0 |})]
           "button1" 0.5 [1; 3]%nat).
  reflexivity.
Defined.

(** A scan that returns has reported every rise through the threshold:
    the first sample if it is strictly above, and every sample strictly
    above whose predecessor is strictly below. *)
Theorem marker_scan_reports_every_rise (mark_xdata_call : Q → result ())
    (plot_pair_data : list (string * Marker.pair_data)) (column : string)
    (pd : Marker.pair_data) (threshold : Q) (cs : list nat) :
  Marker.pair_data_get plot_pair_data column = Ok pd →
  Marker.marker_scan mark_xdata_call plot_pair_data column threshold = Ok cs →
  (∀ y, Marker.pd_y pd !! 0%nat = Some y → (threshold < y)%Q → 0%nat ∈ cs) ∧
  (∀ (k : nat) (y0 y1 : Q),
     Marker.pd_y pd !! k = Some y0 → Marker.pd_y pd !! S k = Some y1 →
     (y0 < threshold)%Q → (threshold < y1)%Q → S k ∈ cs).
Proof.
  intros Hget. unfold Marker.marker_scan. rewrite Hget. cbn.
  destruct (Marker.scan _ _ _ _) as [st|] eqn:Hscan; [|discriminate].
  cbn. intros [= <-]. apply scan_returns in Hscan. rewrite Hscan. split.
  - intros y Hy Hrise. apply elem_of_detect_crossings, is_crossing_spec.
    exists y. done.
  - intros k y0 y1 Hy0 Hy1 Hlow Hrise.
    apply elem_of_detect_crossings, is_crossing_spec.
    exists y1. split; [done|]. split; [|done].
    cbn [Marker.below_before]. rewrite Hy0.
    apply Qlt_bool_iff in Hlow. rewrite Hlow.
    assert (Qlt_bool threshold y0 = false) as ->.
    { apply Qlt_bool_false. apply Qlt_bool_iff in Hlow. lra. }
    by rewrite andb_false_r.
Qed.

Lemma marker_scan_reports_every_rise_witness :
  (∀ y, [0.1; 0.6; 0.4; 0.7; 0.3]%Q !! 0%nat = Some y → (0.5 < y)%Q →
        0%nat ∈ [1; 3]%nat) ∧
  (∀ (k : nat) (y0 y1 : Q),
     [0.1; 0.6; 0.4; 0.7; 0.3]%Q !! k = Some y0 →
     [0.1; 0.6; 0.4; 0.7; 0.3]%Q !! S k = Some y1 →
     (y0 < 0.5)%Q → (0.5 < y1)%Q → S k ∈ [1; 3]%nat).
Proof.
  apply (marker_scan_reports_every_rise (λ _, Ok ())
           [("button1"%string,
             {| Marker.pd_x := [0; 1; 2; 3; 4]%Q;
                Marker.pd_y := [0.1; 0.6; 0.4; 0.7; 0.3]%Q;
                Marker.pd_t := [0; 1; 2; 3; 4]%Q; Marker.pd_axis := 0 |})]
           "button1"
           {| Marker.pd_x := [0; 1; 2; 3; 4]%Q;
              Marker.pd_y := [0.1; 0.6; 0.4; 0.7; 0.3]%Q;
              Marker.pd_t := [0; 1; 2; 3; 4]%Q; Marker.pd_axis := 0 |}
           0.5 [1; 3]%nat); reflexivity.
Defined.

(** When no sample of the column is above the threshold, samples equal
    to it included, the scan returns without a single call of
    [mark_xdata] and without reading the x array, which may even be
    empty. *)
Theorem marker_scan_quiet_below_threshold (mark_xdata_call : Q → result ())
    (plot_pair_data : list (string * Marker.pair_data)) (column : string)
    (pd : Marker.pair_data) (threshold : Q) :
  Marker.pair_data_get plot_pair_data column = Ok pd →
  forallb (λ y, Qle_bool y threshold) (Marker.pd_y pd) = true →
  Marker.marker_scan mark_xdata_call plot_pair_data column threshold = Ok [].
Proof.
  intros Hget Hall. unfold Marker.marker_scan, Marker.scan. rewrite Hget. cbn.
  destruct (scan_loop_quiet mark_xdata_call (Marker.pd_x pd) (Marker.pd_y pd)
              threshold (seq 0 (length (Marker.pd_y pd)))
              {| Marker.is_low := true; Marker.crossings := [] |} Hall)
    as (st & -> & Hcs).
  - apply Forall_forall. intros i Hi. apply elem_of_seq in Hi. lia.
  - cbn. by rewrite Hcs.
Qed.

Lemma marker_scan_quiet_below_threshold_witness :
  Marker.marker_scan (λ _, Raise TypeError)
    [("level"%string,
      {| Marker.pd_x := []; Marker.pd_y := [0.5; 0.2; 0.5]%Q;
         Marker.pd_t := []; Marker.pd_axis := 0 |})]
    "level" 0.5 = Ok [].
Proof.
  apply (marker_scan_quiet_below_threshold (λ _, Raise TypeError)
           [("level"%string,
             {| Marker.pd_x := []; Marker.pd_y := [0.5; 0.2; 0.5]%Q;
                Marker.pd_t := []; Marker.pd_axis := 0 |})]
           "level"
           {| Marker.pd_x := []; Marker.pd_y := [0.5; 0.2; 0.5]%Q;
              Marker.pd_t := []; Marker.pd_axis := 0 |} 0.5); reflexivity.
Defined.

(** ** More on the plot-spec builders *)

Section BuilderMore.
Import Builder.

(** Where [find] finds the character, the string is what stands before
    it, the character, and what stands after it. *)
Lemma find_char_split (c : ascii) (s : string) (n : nat) :
  find_char c s = Some n →
  s = (string_take n s ++ String c (string_drop (S n) s))%string ∧
  find_char c (string_take n s) = None ∧
  (n < String.length s)%nat.
Proof.
  revert n. induction s as [|a s IH]; intros n; [discriminate|].
  cbn [find_char]. destruct (Ascii.eqb_spec a c) as [->|Hne].
  - intros [= <-]. cbn. split; [by destruct s|]. split; [done|lia].
  - destruct (find_char c s) as [m|] eqn:Hfind; [|discriminate].
    cbn. intros [= <-]. destruct (IH m eq_refl) as (Hs & Hnone & Hlt).
    split; [|split].
    + change (String a s =
              String a (string_take m s ++ String c (string_drop (S m) s))).
      by rewrite <- Hs.
    + change (find_char c (String a (string_take m s)) = None).
      cbn [find_char]. rewrite Hnone. by destruct (Ascii.eqb_spec a c).
    + cbn [String.length]. lia.
Qed.

Lemma split_pair_cases (token : string) :
  ∃ x y : string,
    split_pair token = Ok (x, y) ∧
    ((find_char "," token = None ∧ x = "timestamp"%string ∧ y = token) ∨
     (token = (x ++ "," ++ y)%string ∧ find_char "," x = None)).
Proof.
  unfold split_pair, py_find, py_index.
  destruct (find_char "," token) as [n|] eqn:Hfind.
  - rewrite bool_decide_eq_true_2 by lia. cbn.
    destruct (find_char_split _ _ _ Hfind) as (Hs & Hnone & Hlt).
    unfold py_slice_to, py_slice_from.
    rewrite !slice_bound_inside by lia. rewrite Nat2Z.id.
    replace (Z.to_nat (Z.of_nat n + 1)) with (S n) by lia.
    eexists _, _. split; [done|]. right. split; [exact Hs|exact Hnone].
  - cbn. eexists _, _. split; [done|]. left. done.
Qed.

(** [append_current] adds one entry and no subplot. *)
Lemma append_current_counts (e : dict) (subplots : list (list dict)) :
  subplots ≠ [] →
  length (append_current e subplots) = length subplots ∧
  length (concat (append_current e subplots)) = S (length (concat subplots)).
Proof.
  intros Hne. split; [apply length_alter|].
  destruct (exists_last Hne) as (init & last & ->).
  rewrite (append_current_app e init [last]) by done.
  unfold append_current. cbn.
  rewrite !concat_app, !length_app. cbn. rewrite !app_nil_r, length_app. cbn. lia.
Qed.

Lemma arguments_loop_counts (arguments : list string) (subplots : list (list dict)) :
  subplots ≠ [] →
  ∃ result,
    arguments_loop arguments subplots = Ok result ∧
    length result =
      (length subplots + length (filter (λ token, token = "/"%string) arguments))%nat ∧
    length (concat result) =
      (length (concat subplots) +
       length (filter (λ token, token ≠ "/"%string) arguments))%nat.
Proof.
  revert subplots. induction arguments as [|token rest IH]; intros subplots Hne.
  - exists subplots. cbn. split; [done|]. split; lia.
  - cbn [arguments_loop]. rewrite !filter_cons. case_bool_decide as Hsep.
    + destruct (IH (subplots ++ [[]])) as (result & Hrun & Hlen & Hentries).
      { by destruct subplots. }
      exists result. split; [done|].
      rewrite decide_True by done. rewrite decide_False by tauto.
      rewrite length_app in Hlen. rewrite concat_app, length_app in Hentries.
      cbn in *. split; lia.
    + destruct (split_pair_total token) as [xy ->]. cbn.
      destruct (append_current_counts (xy_entry xy.1 xy.2) subplots Hne) as [Hl Hc].
      destruct (IH (append_current (xy_entry xy.1 xy.2) subplots))
        as (result & Hrun & Hlen & Hentries).
      { by apply append_current_nonempty. }
      exists result. split; [done|].
      rewrite decide_False by done. rewrite decide_True by done.
      cbn. split; lia.
Qed.

Lemma yaml_entry_built (raw e : dict) :
  yaml_entry raw = Ok e → Extra.built_from raw e.
Proof.
  intros Hrun. pose proof (yaml_entry_keys raw e Hrun) as Hdom.
  revert Hrun. unfold yaml_entry, py_dict_get.
  destruct (raw !! "y") as [y|] eqn:Hy; [|discriminate]. cbn.
  intros [= <-]. unfold Extra.built_from. rewrite Hy.
  split; [|split; [|split; [|split; [|split]]]].
  - rewrite lookup_insert_eq. by destruct (raw !! "x").
  - by simplify_map_eq.
  - by eexists.
  - rewrite !lookup_insert_ne, lookup_insert_eq by done. by destruct (raw !! "table").
  - by simplify_map_eq.
  - done.
Qed.

Lemma yaml_subplot_built (entries es : list dict) :
  yaml_subplot entries = Ok es → Forall2 Extra.built_from entries es.
Proof.
  revert es. induction entries as [|raw rest IH]; intros es.
  - intros [= <-]. constructor.
  - cbn [yaml_subplot].
    destruct (yaml_entry raw) as [e|] eqn:He; [|discriminate]. cbn.
    destruct (yaml_subplot rest) as [es'|]; [|discriminate]. cbn.
    intros [= <-]. constructor; [by apply yaml_entry_built|by apply IH].
Qed.

Lemma yaml_subplot_total (entries : list dict) :
  Forall (λ raw : dict, is_Some (raw !! "y")) entries →
  ∃ es, yaml_subplot entries = Ok es.
Proof.
  induction 1 as [|raw rest [y Hy] _ [es IH]]; [by exists []|].
  cbn [yaml_subplot]. unfold yaml_entry at 1, py_dict_get. rewrite Hy. cbn.
  rewrite IH. cbn. eauto.
Qed.

End BuilderMore.

(** Flat-argument mode never raises, whatever the tokens: the result has
    one subplot more than there are "/" tokens and the subplots hold one
    entry for every other token.  A leading "/" puts an empty subplot
    in front of the subplots of the tokens after it, and a trailing "/"
    puts an empty subplot behind the subplots of the tokens before it. *)
Theorem create_subplots_from_arguments_counts (arguments : list string) :
  ∃ subplots : list (list dict),
    Builder.create_subplots_from_arguments arguments = Ok subplots ∧
    length subplots = S (length (filter (λ token, token = "/"%string) arguments)) ∧
    length (concat subplots) =
      length (filter (λ token, token ≠ "/"%string) arguments) ∧
    Builder.create_subplots_from_arguments ("/"%string :: arguments)
    = Ok ([] :: subplots) ∧
    Builder.create_subplots_from_arguments (arguments ++ ["/"%string])
    = Ok (subplots ++ [[]]).
Proof.
  destruct (arguments_loop_counts arguments [[]]) as (result & Hrun & Hlen & Hentries);
    [done|].
  exists result. split; [exact Hrun|]. cbn in Hlen, Hentries.
  split; [lia|]. split; [lia|]. unfold Builder.create_subplots_from_arguments. split.
  - cbn [Builder.arguments_loop]. rewrite bool_decide_eq_true_2 by done.
    change ([[]] ++ [[]]) with ([([] : list dict)] ++ [[]]).
    rewrite (arguments_loop_app arguments [[]] [[]]) by done. by rewrite Hrun.
  - rewrite arguments_loop_tokens, Hrun. cbn.
    by rewrite bool_decide_eq_true_2.
Qed.

(** Every token is cut without loss: either it has no comma, and then x
    is the word [timestamp] and y the whole token, or x has no comma and
    x, a comma and y put together give the token back. *)
Theorem split_pair_loses_nothing (token : string) :
  ∃ x y : string,
    Builder.split_pair token = Ok (x, y) ∧
    ((find_char "," token = None ∧ x = "timestamp"%string ∧ y = token) ∨
     (token = (x ++ "," ++ y)%string ∧ find_char "," x = None)).
Proof. apply split_pair_cases. Qed.

(** Declarative mode keeps the shape of the tree.  When every entry has
    the key ['y'] the builder returns; and whenever it returns there is
    one subplot per key of the tree, in the order of the keys, with one
    entry per entry of the tree, in order, holding x (the word
    [timestamp] when the tree entry has none), y, table ([None] when the
    tree entry has none) and the whole tree entry under ['options']. *)
Theorem create_subplots_from_yaml_keeps_shape (plots : list (pyval * list dict)) :
  (Forall (λ p, Forall (λ raw : dict, is_Some (raw !! "y")) p.2) plots →
   ∃ subplots, Builder.create_subplots_from_yaml plots = Ok subplots) ∧
  (∀ subplots,
     Builder.create_subplots_from_yaml plots = Ok subplots →
     Forall2 (λ p subplot, Forall2 Extra.built_from p.2 subplot) plots subplots).
Proof.
  split.
  - induction 1 as [|[key entries] rest Hentries _ [subplots IH]]; [by exists []|].
    cbn [Builder.create_subplots_from_yaml].
    destruct (yaml_subplot_total entries Hentries) as [es ->]. cbn.
    rewrite IH. cbn. eauto.
  - induction plots as [|[key entries] rest IH]; intros subplots.
    + intros [= <-]. constructor.
    + cbn [Builder.create_subplots_from_yaml].
      destruct (Builder.yaml_subplot entries) as [es|] eqn:Hes; [|discriminate].
      cbn. destruct (Builder.create_subplots_from_yaml rest) as [ss|]; [|discriminate].
      cbn. intros [= <-].
      constructor; [by apply yaml_subplot_built|by apply IH].
Qed.

Lemma create_subplots_from_yaml_keeps_shape_witness :
  (∃ subplots,
     Builder.create_subplots_from_yaml
       [(PyStr "top", [({["y" := PyStr "height"]} : dict)]);
        (PyStr "bottom", [])] = Ok subplots) ∧
  Forall2 (λ p subplot, Forall2 Extra.built_from p.2 subplot)
    [(PyStr "top", [({["y" := PyStr "height"]} : dict)]);
     (PyStr "bottom", [])]
    [[Sample.built "timestamp" "height" {["y" := PyStr "height"]}]; []].
Proof.
  destruct (create_subplots_from_yaml_keeps_shape
              [(PyStr "top", [({["y" := PyStr "height"]} : dict)]);
               (PyStr "bottom", [])]) as [Htotal Hshape].
  split.
  - apply Htotal. repeat constructor. by eexists.
  - apply Hshape. reflexivity.
Defined.

(** ** More on [gather_new_data] *)

Section GatherMore.
Import Gather.
Variable ds : Main.data_source.
Variable animate : bool.

Lemma gatherable_call (d : dict) :
  d !! "data_source" = Some PyDataSource →
  is_Some (d !! "xident") → is_Some (d !! "yident") →
  ∃ xident yident,
    d !! "xident" = Some xident ∧ d !! "yident" = Some yident ∧
    gather_call ds animate d = Ok (Main.gather ds xident yident animate).
Proof.
  intros Hsource [xident Hx] [yident Hy]. exists xident, yident.
  unfold gather_call, py_dict_get. by rewrite Hsource, Hx, Hy.
Qed.

(** The loop body on an entry that is ready: it returns, the entry has
    its data, and what was ready or gathered before still is. *)
Lemma gather_entry_ready (plot_entry : nat) (h : heap) :
  Extra.gatherable h plot_entry →
  ∃ h', gather_entry ds animate plot_entry h = (h', Ok ()) ∧
        Extra.gathered ds animate h' plot_entry ∧
        (∀ loc, Extra.gatherable h loc → Extra.gatherable h' loc) ∧
        (∀ loc, Extra.gathered ds animate h loc → Extra.gathered ds animate h' loc).
Proof.
  intros (d & Hd & Hsource & Hx & Hy).
  destruct (gatherable_call d Hsource Hx Hy) as (xident & yident & Hxi & Hyi & Hcall).
  unfold gather_entry. rewrite Hd, Hcall. eexists. split; [done|].
  assert (Extra.gathered ds animate
            (<[plot_entry := ODict (<["data" := Main.gather ds xident yident animate]> d)]> h)
            plot_entry) as Hnew.
  { exists (<["data" := Main.gather ds xident yident animate]> d), xident, yident.
    rewrite lookup_insert_eq. by simplify_map_eq. }
  split; [exact Hnew|]. split.
  - intros loc (d0 & Hd0 & Hs0 & Hx0 & Hy0).
    destruct (decide (loc = plot_entry)) as [->|Hne].
    + exists (<["data" := Main.gather ds xident yident animate]> d).
      rewrite lookup_insert_eq. rewrite Hd in Hd0. injection Hd0 as <-.
      by simplify_map_eq.
    + exists d0. by rewrite lookup_insert_ne.
  - intros loc Hloc. destruct (decide (loc = plot_entry)) as [->|Hne]; [done|].
    destruct Hloc as (d0 & x0 & y0 & Hd0 & Hrest).
    exists d0, x0, y0. by rewrite lookup_insert_ne.
Qed.

Lemma gather_loop_ready (fuel plot_info i : nat) (h : heap) (l : list nat) :
  h !! plot_info = Some (OList l) →
  (i ≤ length l < i + fuel)%nat →
  Forall (Extra.gatherable h) l →
  Forall (Extra.gathered ds animate h) (take i l) →
  ∃ h', gather_loop ds animate fuel plot_info i h = Some (h', Ok ()) ∧
        only_data_written h h' ∧
        Forall (Extra.gathered ds animate h') l.
Proof.
  revert i h. induction fuel as [|fuel IH]; intros i h Hlist Hfuel Hready Hdone; [lia|].
  cbn [gather_loop]. rewrite Hlist.
  destruct (l !! i) as [plot_entry|] eqn:Hi.
  - assert (Extra.gatherable h plot_entry) as Hentry.
    { eapply Forall_forall; [exact Hready|]. by eapply list_elem_of_lookup_2. }
    pose proof (gather_entry_frame ds animate plot_entry h) as Hframe.
    destruct (gather_entry_ready plot_entry h Hentry)
      as (h1 & Hrun & Hnew & Hkeep & Hkept).
    rewrite Hrun in Hframe |- *. cbn in Hframe.
    pose proof (Hframe plot_info) as Hsame. rewrite Hlist in Hsame.
    apply lookup_lt_Some in Hi as Hlt.
    destruct (IH (S i) h1 Hsame ltac:(lia)) as (h' & Hloop & Hframe' & Hall).
    + eapply Forall_impl; [exact Hready|]. exact Hkeep.
    + rewrite (take_S_r l i plot_entry Hi). apply Forall_app. split.
      * eapply Forall_impl; [exact Hdone|]. exact Hkept.
      * by constructor.
    + exists h'. split; [done|]. split; [|done].
      by eapply only_data_written_trans.
  - exists h. split; [done|]. split; [apply only_data_written_refl|].
    apply lookup_ge_None in Hi. by rewrite take_ge in Hdone by lia.
Qed.

End GatherMore.

(** On a list whose entries all have a loader under ['data_source'] and
    the keys ['xident'] and ['yident'], the same entry possibly listed
    more than once, [gather_new_data] returns without an exception, and
    afterwards every listed entry holds under ['data'] what the loader
    gathers for its two identifiers and the mode flag. *)
Theorem gather_new_data_fills_every_entry (ds : Main.data_source) (animate : bool)
    (plot_info : nat) (h : Gather.heap) (l : list nat) (extra : nat) :
  h !! plot_info = Some (Gather.OList l) →
  Forall (Extra.gatherable h) l →
  ∃ h' : Gather.heap,
    Gather.gather_new_data ds animate (S (length l) + extra) plot_info h
    = Some (h', Ok ()) ∧
    Gather.only_data_written h h' ∧
    Forall (Extra.gathered ds animate h') l.
Proof.
  intros Hlist Hready.
  destruct (gather_loop_ready ds animate (S (length l)) plot_info 0 h l Hlist
              ltac:(lia) Hready ltac:(constructor)) as (h' & Hrun & Hframe & Hall).
  exists h'. split; [|done].
  by apply gather_loop_more_fuel.
Qed.

Lemma gather_new_data_fills_every_entry_witness :
  ∃ h' : Gather.heap,
    Gather.gather_new_data Sample.ds true (S (length [0; 0]%nat) + 0) 1
      (<[1%nat := Gather.OList [0; 0]%nat]>
         ({[0%nat := Gather.ODict
                       (Main.attach (PyStr "t") (PyStr "h") 0
                          (Sample.built "timestamp" "height" ∅))]} : Gather.heap))
    = Some (h', Ok ()) ∧
    Gather.only_data_written
      (<[1%nat := Gather.OList [0; 0]%nat]>
         ({[0%nat := Gather.ODict
                       (Main.attach (PyStr "t") (PyStr "h") 0
                          (Sample.built "timestamp" "height" ∅))]} : Gather.heap))
      h' ∧
    Forall (Extra.gathered Sample.ds true h') [0; 0]%nat.
Proof.
  apply (gather_new_data_fills_every_entry Sample.ds true 1 _ [0; 0]%nat 0).
  - reflexivity.
  - assert (Extra.gatherable
              (<[1%nat := Gather.OList [0; 0]%nat]>
                 ({[0%nat := Gather.ODict
                               (Main.attach (PyStr "t") (PyStr "h") 0
                                  (Sample.built "timestamp" "height" ∅))]}
                  : Gather.heap)) 0) as Hready.
    { eexists. split; [reflexivity|]. split; [reflexivity|].
      split; eexists; reflexivity. }
    repeat constructor; exact Hready.
Defined.

(** An entry that lacks one of the keys [gather_new_data] reads stops
    the call with [KeyError] for the first key missing, in the order
    ['data_source'], ['xident'], ['yident'], and nothing is stored for
    it. *)
Theorem gather_entry_missing_key (ds : Main.data_source) (animate : bool)
    (plot_entry : nat) (h : Gather.heap) (d : dict) :
  h !! plot_entry = Some (Gather.ODict d) →
  (d !! "data_source" = None →
   Gather.gather_entry ds animate plot_entry h = (h, Raise (KeyError "data_source"))) ∧
  (d !! "data_source" = Some PyDataSource → d !! "xident" = None →
   Gather.gather_entry ds animate plot_entry h = (h, Raise (KeyError "xident"))) ∧
  (d !! "data_source" = Some PyDataSource → is_Some (d !! "xident") →
   d !! "yident" = None →
   Gather.gather_entry ds animate plot_entry h = (h, Raise (KeyError "yident"))).
Proof.
  intros Hd. unfold Gather.gather_entry, Gather.gather_call, py_dict_get.
  rewrite Hd. split; [|split].
  - by intros ->.
  - by intros -> ->.
  - by intros -> [x ->] ->.
Qed.

Lemma gather_entry_missing_key_witness :
  Gather.gather_entry Sample.ds false 0
    ({[0%nat := Gather.ODict (Builder.xy_entry "a" "b")]} : Gather.heap)
  = ({[0%nat := Gather.ODict (Builder.xy_entry "a" "b")]},
     Raise (KeyError "data_source")).
Proof.
  destruct (gather_entry_missing_key Sample.ds false 0
              ({[0%nat := Gather.ODict (Builder.xy_entry "a" "b")]} : Gather.heap)
              (Builder.xy_entry "a" "b")) as [Hsource _]; [reflexivity|].
  apply Hsource. reflexivity.
Defined.

(** ** More on [main] up to the first gather *)

Section MainMore.
Import Main.

Lemma lift_ok_inv {A : Type} (r : result A) (tr : list event) (a : A) :
  lift r = (tr, Ok a) → r = Ok a ∧ tr = [].
Proof. unfold lift. by intros [= <- ->]. Qed.

Lemma apply_options_ok (axis : nat) (entry : dict) (tr : list event) (u : ()) :
  apply_options axis entry = (tr, Ok u) →
  ∃ options, entry !! "options" = Some (PyDict options).
Proof.
  unfold apply_options, py_dict_get.
  destruct (entry !! "options") as [[]|]; try discriminate. eauto.
Qed.

(** An entry that leaves the loop body had string names, both
    identifiers found and a dictionary of options. *)
Lemma process_entry_resolved (ds : data_source) (axis : nat) (entry e' : dict)
    (tr : list event) :
  process_entry ds axis entry = (tr, Ok e') → Extra.resolved ds (axis, entry) e'.
Proof.
  intros Hrun. pose proof Hrun as Hrun'. unfold process_entry in Hrun'.
  apply prog_bind_inv_ok in Hrun' as (t1 & x & t2 & Hx & Hrest & _).
  apply lift_ok_inv in Hx as [Hx _].
  apply prog_bind_inv_ok in Hrest as (t3 & y & t4 & Hy & Hrest & _).
  apply lift_ok_inv in Hy as [Hy _].
  unfold py_dict_get in Hx, Hy.
  destruct (entry !! "x") as [x'|] eqn:Hex; [|discriminate]. injection Hx as ->.
  destruct (entry !! "y") as [y'|] eqn:Hey; [|discriminate]. injection Hy as ->.
  destruct x as [| | | |x| | | |]; try discriminate.
  destruct y as [| | | |y| | | |]; try discriminate.
  destruct (process_entry_ok ds axis entry e' x y tr Hex Hey Hrun) as (Hxi & Hyi & ->).
  exists x, y. cbn [fst snd]. repeat (split; [done|]). split; [|done].
  unfold resolve_entry in Hrest.
  apply prog_bind_inv_ok in Hrest as (t5 & ids & t6 & Hids & Hrest & _).
  rewrite find_identifiers_eq in Hids. injection Hids as _ <-.
  apply prog_bind_inv_ok in Hrest as (t7 & u & t8 & _ & Hrest & _).
  apply prog_bind_inv_ok in Hrest as (t9 & u' & t10 & Hopt & _ & _).
  apply apply_options_ok in Hopt as [options Hopt].
  exists options. unfold attach in Hopt. by simplify_map_eq.
Qed.

Lemma process_subplot_resolved (ds : data_source) (axis : nat) (subplot es : list dict)
    (tr : list event) :
  process_subplot ds axis subplot = (tr, Ok es) →
  Forall2 (Extra.resolved ds) (map (λ entry, (axis, entry)) subplot) es.
Proof.
  revert tr es. induction subplot as [|entry rest IH]; intros tr es.
  - intros [= <- <-]. constructor.
  - cbn [process_subplot map]. intros Hrun.
    apply prog_bind_inv_ok in Hrun as (t1 & e & t2 & He & Hrest & _).
    apply prog_bind_inv_ok in Hrest as (t3 & es' & t4 & Hes & Hret & _).
    injection Hret as _ <-.
    constructor; [by eapply process_entry_resolved|by eapply IH].
Qed.

Lemma process_plots_resolved (ds : data_source) (axis : nat) (plots : list (list dict))
    (plot_info : list dict) (tr : list event) :
  process_plots ds axis plots = (tr, Ok plot_info) →
  Forall2 (Extra.resolved ds) (Extra.with_axis axis plots) plot_info.
Proof.
  revert axis tr plot_info. induction plots as [|subplot rest IH]; intros axis tr plot_info.
  - intros [= <- <-]. constructor.
  - cbn [process_plots Extra.with_axis]. intros Hrun.
    apply prog_bind_inv_ok in Hrun as (t1 & es & t2 & Hes & Hrest & _).
    apply prog_bind_inv_ok in Hrest as (t3 & es' & t4 & Hes' & Hret & _).
    injection Hret as _ <-.
    apply Forall2_app; [by eapply process_subplot_resolved|by eapply IH].
Qed.

(** What has gone well when [main] reaches line 406. *)
Lemma main_prepare_ok_inv (w : world) (a : args) (ds : data_source)
    (plot_info : list dict) (tr : list event) :
  main_prepare w a = (tr, Ok (ds, plot_info)) →
  ∃ plots tr_open tr_loop,
    build_plots a = Ok plots ∧
    open_data_source w a plots = (tr_open, Ok ds) ∧
    list_variables a = false ∧
    plt_subplots w (length plots) = Ok () ∧
    process_plots ds 0 plots = (tr_loop, Ok plot_info).
Proof.
  unfold main_prepare. intros Hrun.
  apply prog_bind_inv_ok in Hrun as (t1 & u1 & t2 & _ & Hrun & _).
  apply prog_bind_inv_ok in Hrun as (t3 & plots & t4 & Hplots & Hrun & _).
  apply lift_ok_inv in Hplots as [Hplots _].
  apply prog_bind_inv_ok in Hrun as (t5 & ds' & t6 & Hopen & Hrun & _).
  apply prog_bind_inv_ok in Hrun as (t7 & u2 & t8 & Hlist & Hrun & _).
  apply prog_bind_inv_ok in Hrun as (t9 & u3 & t10 & _ & Hrun & _).
  apply prog_bind_inv_ok in Hrun as (t11 & u4 & t12 & Hsub & Hrun & _).
  apply lift_ok_inv in Hsub as [Hsub _].
  apply prog_bind_inv_ok in Hrun as (t13 & pi & t14 & Hloop & Hret & _).
  injection Hret as _ <- <-.
  exists plots, t5, t13. repeat (split; [done|]). split; [|split; [|done]].
  - destruct (list_variables a); [discriminate|done].
  - by destruct u4.
Qed.

Lemma with_axis_entries (axis : nat) (plots : list (list dict)) :
  (Extra.with_axis axis plots).*2 = concat plots.
Proof.
  revert axis. induction plots as [|subplot rest IH]; intros axis; [done|].
  cbn [Extra.with_axis concat]. rewrite fmap_app, IH. f_equal.
  induction subplot as [|e subplot IHs]; [done|]. cbn. by rewrite IHs.
Qed.

End MainMore.

Lemma resolved_appended (ds : Main.data_source) (p : nat * dict) (e' : dict) :
  Extra.resolved ds p e' → Extra.appended ds p e'.
Proof.
  intros (x & y & Hx & Hy & Hxi & Hyi & Hopt & ->).
  exists x, y, (Main.x_identifier ds x y), (Main.find_column_identifier ds y).
  unfold Main.attach.
  do 7 (split; [done|]).
  split; [by rewrite !lookup_insert_ne, lookup_insert_eq by done|].
  split; [by rewrite !lookup_insert_ne, lookup_insert_eq by done|].
  split; [by rewrite lookup_insert_ne, lookup_insert_eq by done|].
  split; [by rewrite lookup_insert_eq|]. split.
  - intros key ? ? ? ?. by rewrite !lookup_insert_ne.
  - rewrite !dom_insert_L. apply set_eq. intros key.
    rewrite !elem_of_union, !elem_of_singleton. tauto.
Qed.

(** When [main] reaches line 406, [plot_info] lists the entries of the
    plots in plotting order, one for one; each had string names and a
    dictionary of options, both its identifiers were found, neither is
    [None], and it has gained exactly the keys ['xident'], ['yident'],
    ['axis'] (the number of its subplot) and ['data_source'], holding
    the two identifiers, the axis and the loader. *)
Theorem main_prepare_resolves_every_entry (w : Main.world) (a : Main.args)
    (ds : Main.data_source) (plot_info : list dict) (tr : list Main.event) :
  Main.main_prepare w a = (tr, Ok (ds, plot_info)) →
  ∃ plots : list (list dict),
    Main.build_plots a = Ok plots ∧
    Forall2 (Extra.appended ds) (Extra.with_axis 0 plots) plot_info.
Proof.
  intros Hrun.
  apply main_prepare_ok_inv in Hrun as (plots & t1 & t2 & Hplots & _ & _ & _ & Hloop).
  exists plots. split; [done|].
  eapply Forall2_impl; [by eapply process_plots_resolved|].
  apply resolved_appended.
Qed.

Lemma main_prepare_resolves_every_entry_witness :
  ∃ plots : list (list dict),
    Main.build_plots
      (Sample.yaml_args
         [(PyStr "top", [({["y" := PyStr "height"]} : dict)]);
          (PyStr "bottom", [({["x" := PyStr "height"; "y" := PyStr "button1"]} : dict)])])
    = Ok plots ∧
    Forall2 (Extra.appended Sample.ds) (Extra.with_axis 0 plots)
      [Main.attach (PyStr "log.csv:timestamp") (PyStr "log.csv:height") 0
         (Sample.built "timestamp" "height" {["y" := PyStr "height"]});
       Main.attach (PyStr "log.csv:height") (PyStr "log.csv:button1") 1
         (Sample.built "height" "button1"
            {["x" := PyStr "height"; "y" := PyStr "button1"]})].
Proof.
  apply (main_prepare_resolves_every_entry Sample.world _ Sample.ds _
           [Main.OpenLogLoader ["log.csv"%string]; Main.Subplots 2;
            Main.FindColumn "height"; Main.FindTimestamp "height";
            Main.FindColumn "button1"; Main.FindColumn "height"]).
  reflexivity.
Defined.

(** Flat-argument mode cannot get through [main]: with plot pairs that
    hold at least one token other than "/", no loader and no
    [plt.subplots] let [main] reach line 406, because no entry has the
    key ['options'] that line 398 reads. *)
Theorem main_prepare_never_completes_on_arguments (w : Main.world) (a : Main.args)
    (pairs : list string) (token : string) (tr : list Main.event)
    (out : Main.data_source * list dict) :
  Main.plot_pairs a = Some pairs →
  token ∈ pairs → token ≠ "/"%string →
  Main.main_prepare w a ≠ (tr, Ok out).
Proof.
  intros Hpairs Hin Hsep Hrun. destruct out as [ds plot_info].
  apply main_prepare_ok_inv in Hrun as (plots & t1 & t2 & Hplots & _ & _ & _ & Hloop).
  apply process_plots_resolved in Hloop.
  unfold Main.build_plots in Hplots. rewrite Hpairs in Hplots.
  destruct pairs as [|p ps]; [by apply elem_of_nil in Hin|].
  destruct (arguments_loop_counts (p :: ps) [[]] ltac:(done))
    as (plots' & Hrun' & _ & Hcount).
  unfold Builder.create_subplots_from_arguments in Hplots.
  rewrite Hplots in Hrun'. injection Hrun' as <-. cbn [concat length Nat.add] in Hcount.
  assert (Forall (Forall (λ e : dict, dom e = ({["x"; "y"]} : gset string))) plots)
    as Hkeys.
  { eapply arguments_loop_keys; [|exact Hplots]. by repeat constructor. }
  assert (token ∈ filter (λ token, token ≠ "/"%string) (p :: ps)) as Hfiltered
    by (by apply list_elem_of_filter).
  destruct (concat plots) as [|e es] eqn:Hentries.
  { symmetry in Hcount. apply nil_length_inv in Hcount.
    rewrite Hcount in Hfiltered. by apply elem_of_nil in Hfiltered. }
  assert (dom e = ({["x"; "y"]} : gset string)) as Hdom.
  { assert (e ∈ concat plots) as He by (rewrite Hentries; apply list_elem_of_here).
    apply list_elem_of_In, in_concat in He as (subplot & Hsub & He).
    apply list_elem_of_In in Hsub, He.
    rewrite Forall_forall in Hkeys. specialize (Hkeys subplot Hsub).
    rewrite Forall_forall in Hkeys. by apply Hkeys. }
  pose proof (with_axis_entries 0 plots) as Hsnd. rewrite Hentries in Hsnd.
  destruct (Extra.with_axis 0 plots) as [|[axis e0] rest]; [discriminate|].
  injection Hsnd as -> _.
  inversion Hloop as [|? e' ? ? Hres _]; subst.
  destruct Hres as (x & y & _ & _ & _ & _ & [options Hopt] & _). cbn in Hopt.
  assert ("options" ∈ dom e) as Habs by (apply elem_of_dom; eauto).
  rewrite Hdom in Habs. set_solver.
Qed.

Lemma main_prepare_never_completes_on_arguments_witness :
  Main.main_prepare Sample.world (Sample.pair_args ["height"%string])
  ≠ ([], Ok (Sample.ds, [])).
Proof.
  apply (main_prepare_never_completes_on_arguments Sample.world
           (Sample.pair_args ["height"%string]) ["height"%string] "height"%string);
    [reflexivity | apply list_elem_of_here | discriminate].
Defined.

Section FirstGather.
Import Main.

Lemma store_of_entry (plot_info : list dict) (i : nat) (e : dict) :
  plot_info !! i = Some e → Extra.store_of plot_info !! i = Some (Gather.ODict e).
Proof.
  intros Hi. apply lookup_lt_Some in Hi as Hlt. unfold Extra.store_of.
  rewrite lookup_insert_ne by lia.
  by rewrite lookup_map_seq_0, list_lookup_fmap, Hi.
Qed.

Lemma store_of_list (plot_info : list dict) :
  Extra.store_of plot_info !! length plot_info
  = Some (Gather.OList (seq 0 (length plot_info))).
Proof. unfold Extra.store_of. apply lookup_insert_eq. Qed.

Lemma resolved_keys (ds : data_source) (p : nat * dict) (e' : dict) :
  Extra.resolved ds p e' →
  ∃ xident yident,
    e' !! "data_source" = Some PyDataSource ∧
    e' !! "xident" = Some xident ∧ e' !! "yident" = Some yident ∧
    xident ≠ PyNone ∧ yident ≠ PyNone.
Proof.
  intros (x & y & _ & _ & Hxi & Hyi & _ & ->).
  exists (x_identifier ds x y), (find_column_identifier ds y).
  unfold attach. by simplify_map_eq.
Qed.

End FirstGather.

(** The first gather of [main] never raises: the plot entries that
    reach line 406 have everything [gather_new_data] reads, so the
    call returns, and every entry of [plot_info] then holds, next to
    what it held before, the data the loader gathers for its two
    identifiers, neither of which is [None]. *)
Theorem main_first_gather_succeeds (w : Main.world) (a : Main.args)
    (ds : Main.data_source) (plot_info : list dict) (tr : list Main.event)
    (animate : bool) :
  Main.main_prepare w a = (tr, Ok (ds, plot_info)) →
  ∃ h' : Gather.heap,
    Extra.main_gather ds animate plot_info = Some (h', Ok ()) ∧
    ∀ (i : nat) (e : dict),
      plot_info !! i = Some e →
      ∃ xident yident : pyval,
        e !! "xident" = Some xident ∧ e !! "yident" = Some yident ∧
        xident ≠ PyNone ∧ yident ≠ PyNone ∧
        h' !! i = Some (Gather.ODict
                          (<["data" := Main.gather ds xident yident animate]> e)).
Proof.
  intros Hrun.
  apply main_prepare_ok_inv in Hrun as (plots & t1 & t2 & _ & _ & _ & _ & Hloop).
  apply process_plots_resolved in Hloop.
  assert (∀ i e, plot_info !! i = Some e →
            ∃ xident yident,
              e !! "data_source" = Some PyDataSource ∧
              e !! "xident" = Some xident ∧ e !! "yident" = Some yident ∧
              xident ≠ PyNone ∧ yident ≠ PyNone) as Hkeys.
  { intros i e Hi.
    destruct (Forall2_lookup_r _ _ _ _ _ Hloop Hi) as (p & _ & Hres).
    by eapply resolved_keys. }
  destruct (gather_loop_ready ds animate (S (length plot_info)) (length plot_info) 0
              (Extra.store_of plot_info) (seq 0 (length plot_info)))
    as (h' & Hgather & Hframe & Hall).
  - apply store_of_list.
  - rewrite length_seq. lia.
  - apply Forall_seq. intros i Hi.
    destruct (lookup_lt_is_Some_2 plot_info i ltac:(lia)) as [e He].
    destruct (Hkeys i e He) as (xi & yi & Hs & Hx & Hy & _).
    exists e. split; [by apply store_of_entry|]. by rewrite Hx, Hy.
  - constructor.
  - exists h'. split.
    { unfold Extra.main_gather, Gather.gather_new_data. exact Hgather. }
    intros i e He. destruct (Hkeys i e He) as (xi & yi & Hs & Hx & Hy & Hxn & Hyn).
    exists xi, yi. repeat (split; [done|]).
    apply lookup_lt_Some in He as Hlt.
    rewrite Forall_seq in Hall. specialize (Hall i ltac:(lia)).
    destruct Hall as (d' & xi' & yi' & Hd' & _ & Hx' & Hy' & Hdata).
    specialize (Hframe i). rewrite (store_of_entry _ _ _ He) in Hframe.
    destruct Hframe as (d'' & Hd'' & Hsame). rewrite Hd' in Hd''.
    injection Hd'' as <-. rewrite Hd'. do 2 f_equal.
    rewrite Hsame, Hx in Hx' by done. rewrite Hsame, Hy in Hy' by done.
    injection Hx' as <-. injection Hy' as <-.
    apply map_eq. intros key. destruct (decide (key = "data"%string)) as [->|Hne].
    + by rewrite Hdata, lookup_insert_eq.
    + rewrite lookup_insert_ne by done. by apply Hsame.
Qed.

Lemma main_first_gather_succeeds_witness :
  ∃ h' : Gather.heap,
    Extra.main_gather Sample.ds true
      [Main.attach (PyStr "log.csv:timestamp") (PyStr "log.csv:height") 0
         (Sample.built "timestamp" "height" {["y" := PyStr "height"]})]
    = Some (h', Ok ()) ∧
    ∀ (i : nat) (e : dict),
      [Main.attach (PyStr "log.csv:timestamp") (PyStr "log.csv:height") 0
         (Sample.built "timestamp" "height" {["y" := PyStr "height"]})] !! i = Some e →
      ∃ xident yident : pyval,
        e !! "xident" = Some xident ∧ e !! "yident" = Some yident ∧
        xident ≠ PyNone ∧ yident ≠ PyNone ∧
        h' !! i = Some (Gather.ODict
                          (<["data" := Main.gather Sample.ds xident yident true]> e)).
Proof.
  apply (main_first_gather_succeeds Sample.world
           (Sample.yaml_args [(PyStr "top", [({["y" := PyStr "height"]} : dict)])])
           Sample.ds _
           [Main.OpenLogLoader ["log.csv"%string]; Main.Subplots 1;
            Main.FindColumn "height"; Main.FindTimestamp "height"]
           true).
  reflexivity.
Defined.



(** With the list-variables flag [main] still builds the plot
    specification first.  If that raises, [main] ends with the
    exception before a loader is made, and nothing is listed.  If it
    goes well and the loader opens, [main] prints one line per table
    and one line per column and exits with status 0: no axes are made
    and no column is looked up. *)
Theorem main_lists_variables_and_exits (w : Main.world) (a : Main.args) :
  Main.list_variables a = true →
  (∀ e : exn,
     Main.build_plots a = Raise e →
     Main.main_prepare w a =
       (match Main.nonempty_string (Main.output_file a) with
        | Some _ => [Main.UseAgg]
        | None => []
        end, Raise e)) ∧
  (∀ (plots : list (list dict)) (ds : Main.data_source) (tr_open : list Main.event),
     Main.build_plots a = Ok plots →
     Main.open_data_source w a plots = (tr_open, Ok ds) →
     ∃ lines : list Main.event,
       Main.main_prepare w a =
         (match Main.nonempty_string (Main.output_file a) with
          | Some _ => [Main.UseAgg]
          | None => []
          end ++ tr_open ++ lines, Raise (SystemExit 0)) ∧
       Forall (λ ev, ∃ line, ev = Main.PrintLine line) lines ∧
       length lines =
         (length (Main.dataframes ds) + length (concat (Main.dataframes ds).*2))%nat).
Proof.
  intros Hlist. split.
  { intros e Hplots. unfold Main.main_prepare. rewrite Hplots.
    by destruct (Main.nonempty_string (Main.output_file a)). }
  intros plots ds tr_open Hplots Hopen.
  exists (Main.print_variables ds).1. split; [|split].
  - unfold Main.main_prepare. rewrite Hplots, Hlist.
    destruct (Main.nonempty_string (Main.output_file a));
      cbn -[Main.open_data_source Main.print_variables]; rewrite Hopen;
      cbn -[Main.print_variables]; by rewrite ?app_nil_r.
  - unfold Main.print_variables. cbn [fst].
    induction (Main.dataframes ds) as [|[filename columns] rest IH]; [constructor|].
    cbn [flat_map]. apply Forall_app. split; [|exact IH].
    constructor; [by eexists|].
    apply Forall_forall. intros ev Hev. apply list_elem_of_In, in_map_iff in Hev.
    destruct Hev as (column & <- & _). by eexists.
  - unfold Main.print_variables. cbn [fst].
    induction (Main.dataframes ds) as [|[filename columns] rest IH]; [done|].
    cbn [flat_map]. rewrite length_app. cbn [length]. rewrite length_map, IH.
    rewrite fmap_cons. cbn [concat snd length]. rewrite length_app. lia.
Qed.

Lemma main_lists_variables_and_exits_witness :
  Main.main_prepare Sample.world
    {| Main.plot_pairs := None;
       Main.yaml_plots := Raise AttributeError;
       Main.output_file := None;
       Main.log_files := Some ["log.csv"%string];
       Main.network_server := None;
       Main.list_variables := true;
       Main.animation_frames := 1;
       Main.animate := false |}
  = ([], Raise AttributeError) ∧
  ∃ lines : list Main.event,
    Main.main_prepare Sample.world
      {| Main.plot_pairs := Some ["height"%string];
         Main.yaml_plots := Raise AttributeError;
         Main.output_file := None;
         Main.log_files := Some ["log.csv"%string];
         Main.network_server := None;
         Main.list_variables := true;
         Main.animation_frames := 1;
         Main.animate := false |}
    = ([] ++ [Main.OpenLogLoader ["log.csv"%string]] ++ lines, Raise (SystemExit 0)) ∧
    Forall (λ ev, ∃ line, ev = Main.PrintLine line) lines ∧
    length lines =
      (length (Main.dataframes Sample.ds) +
       length (concat (Main.dataframes Sample.ds).*2))%nat.
Proof.
  split.
  - apply (proj1 (main_lists_variables_and_exits Sample.world
                    {| Main.plot_pairs := None;
                       Main.yaml_plots := Raise AttributeError;
                       Main.output_file := None;
                       Main.log_files := Some ["log.csv"%string];
                       Main.network_server := None;
                       Main.list_variables := true;
                       Main.animation_frames := 1;
                       Main.animate := false |} eq_refl) AttributeError).
    reflexivity.
  - apply (proj2 (main_lists_variables_and_exits Sample.world
                    {| Main.plot_pairs := Some ["height"%string];
                       Main.yaml_plots := Raise AttributeError;
                       Main.output_file := None;
                       Main.log_files := Some ["log.csv"%string];
                       Main.network_server := None;
                       Main.list_variables := true;
                       Main.animation_frames := 1;
                       Main.animate := false |} eq_refl)
             [[Builder.xy_entry "timestamp" "height"]] Sample.ds
             [Main.OpenLogLoader ["log.csv"%string]]); reflexivity.
Defined.

(** ** The pause button *)

Section PauseFacts.
Import Pause.

Lemma clicks_spec (n : nat) (st : state) :
  paused (clicks n st).2 = xorb (paused st) (Nat.odd n) ∧
  length (clicks n st).1 = n ∧
  ∀ i, (i < n)%nat →
       (clicks n st).1 !! i =
         Some (if xorb (paused st) (Nat.odd i) then TimerStop else TimerStart).
Proof.
  revert st. induction n as [|n IH]; intros st.
  - cbn. split; [by destruct (paused st)|]. split; [done|]. lia.
  - cbn [clicks]. destruct (pause st) as [call st1] eqn:Hpause.
    destruct (clicks n st1) as [calls st2] eqn:Hclicks.
    destruct (IH st1) as (Hflag & Hlen & Hcalls). rewrite Hclicks in *.
    cbn [fst snd] in *.
    assert (paused st1 = negb (paused st) ∧
            call = if paused st then TimerStop else TimerStart) as [Hst1 ->].
    { unfold pause in Hpause. by destruct (paused st); injection Hpause as <- <-. }
    rewrite Hst1 in *. split; [|split].
    + rewrite Hflag, Nat.odd_succ, <- Nat.negb_odd.
      by destruct (paused st), (Nat.odd n).
    + cbn. by rewrite Hlen.
    + intros [|i] Hi.
      * cbn. by destruct (paused st).
      * cbn [lookup list_lookup]. rewrite Hcalls by lia.
        rewrite Nat.odd_succ, <- Nat.negb_odd.
        by destruct (paused st), (Nat.odd i).
Qed.

End PauseFacts.

(** Clicks on the pause button take turns.  From the state the module
    starts in, the first click and every other one after it call
    [start] on the timer and raise the flag [paused]; only the second,
    the fourth, ... click calls [stop].  After [n] clicks the flag is
    up exactly when [n] is odd. *)
Theorem pause_clicks_alternate (n : nat) :
  Pause.paused (Pause.clicks n Pause.initial).2 = Nat.odd n ∧
  length (Pause.clicks n Pause.initial).1 = n ∧
  ∀ i : nat, (i < n)%nat →
    (Pause.clicks n Pause.initial).1 !! i =
      Some (if Nat.odd i then Pause.TimerStop else Pause.TimerStart).
Proof. apply (clicks_spec n Pause.initial). Qed.

Lemma pause_clicks_alternate_witness :
  (Pause.clicks 3 Pause.initial).1 !! 1%nat = Some Pause.TimerStop.
Proof.
  apply (proj2 (proj2 (pause_clicks_alternate 3)) 1%nat). lia.
Defined.

(** ** The marker columns *)

Section SplitFacts.
Import MarkerColumns.

Lemma py_split_plain (c : ascii) (s : string) :
  find_char c s = None → py_split c s = [s].
Proof.
  induction s as [|a s IH]; [done|]. cbn [find_char py_split].
  destruct (Ascii.eqb a c); [discriminate|].
  destruct (find_char c s); [discriminate|]. intros _. by rewrite IH.
Qed.

Lemma py_split_app (c : ascii) (pre rest : string) :
  find_char c pre = None →
  py_split c (pre ++ String c rest) = pre :: py_split c rest.
Proof.
  induction pre as [|a pre IH]; intros Hpre.
  - rewrite string_app_nil. cbn [py_split]. by rewrite Ascii.eqb_refl.
  - rewrite string_app_cons. cbn [find_char py_split] in *.
    destruct (Ascii.eqb a c); [discriminate|].
    destruct (find_char c pre); [discriminate|]. by rewrite IH.
Qed.

(** Reading a list at a position given as a number. *)
Lemma py_getitem_at {A : Type} (l : list A) (z : Z) (i : nat) (a : A) :
  z = Z.of_nat i → l !! i = Some a → py_getitem l z = Ok a.
Proof. intros ->. apply py_getitem_inside. Qed.

End SplitFacts.

(** The three forms of a marker specification.  A specification without
    a comma is a column with the threshold 0.5 and the marker "x"; in
    [column,threshold] the marker is "x"; in [column,threshold,marker]
    all three are given, and whatever follows a further comma is
    ignored.  The column is what stands before the first comma. *)
Theorem marker_spec_forms (py_float : string → result Q) :
  (∀ column : string,
     find_char "," column = None →
     MarkerColumns.marker_spec py_float column = Ok (column, 0.5%Q, "x"%string)) ∧
  (∀ (column threshold : string) (q : Q),
     find_char "," column = None → find_char "," threshold = None →
     py_float threshold = Ok q →
     MarkerColumns.marker_spec py_float (column ++ "," ++ threshold)
     = Ok (column, q, "x"%string)) ∧
  (∀ (column threshold marker : string) (q : Q),
     find_char "," column = None → find_char "," threshold = None →
     find_char "," marker = None → py_float threshold = Ok q →
     MarkerColumns.marker_spec py_float (column ++ "," ++ threshold ++ "," ++ marker)
     = Ok (column, q, marker) ∧
     ∀ more : string,
       MarkerColumns.marker_spec py_float
         (column ++ "," ++ threshold ++ "," ++ marker ++ "," ++ more)
       = Ok (column, q, marker)).
Proof.
  split; [|split].
  - intros column Hc. unfold MarkerColumns.marker_spec.
    rewrite (py_split_plain _ _ Hc).
    by rewrite (py_getitem_at _ 0 0%nat column) by done.
  - intros column threshold q Hc Ht Hq. unfold MarkerColumns.marker_spec.
    change ("," ++ threshold)%string with (String "," threshold).
    rewrite (py_split_app _ _ _ Hc), (py_split_plain _ _ Ht).
    rewrite (py_getitem_at _ 0 0%nat column), (py_getitem_at _ 1 1%nat threshold)
      by done.
    cbn. by rewrite Hq.
  - intros column threshold marker q Hc Ht Hm Hq. split; [|intros more];
      unfold MarkerColumns.marker_spec.
    + change ("," ++ threshold ++ "," ++ marker)%string
        with (String "," (threshold ++ String "," marker)).
      rewrite (py_split_app _ _ _ Hc), (py_split_app _ _ _ Ht), (py_split_plain _ _ Hm).
      rewrite (py_getitem_at _ 0 0%nat column), (py_getitem_at _ 1 1%nat threshold),
        (py_getitem_at _ 2 2%nat marker) by done.
      cbn. by rewrite Hq.
    + change ("," ++ threshold ++ "," ++ marker ++ "," ++ more)%string
        with (String "," (threshold ++ String "," (marker ++ String "," more))).
      rewrite (py_split_app _ _ _ Hc), (py_split_app _ _ _ Ht), (py_split_app _ _ _ Hm).
      rewrite (py_getitem_at _ 0 0%nat column), (py_getitem_at _ 1 1%nat threshold),
        (py_getitem_at _ 2 2%nat marker) by done.
      cbn. by rewrite Hq.
Qed.

Lemma marker_spec_forms_witness :
  MarkerColumns.marker_spec (λ _, Ok 0.75%Q) ("button2" ++ "," ++ ".75" ++ "," ++ "o")
  = Ok ("button2"%string, 0.75%Q, "o"%string).
Proof.
  apply (proj1 (proj2 (proj2 (marker_spec_forms (λ _, Ok 0.75%Q)))
                  "button2"%string ".75"%string "o"%string 0.75%Q
                  eq_refl eq_refl eq_refl eq_refl)).
Defined.

(** With [plot_pair_data] empty, as line 99 makes it, a marker column
    ends the marker loop with [KeyError] for the column of the first
    specification, once that specification has been read. *)
Theorem main_markers_on_empty_pair_data (py_float : string → result Q)
    (mark_xdata_call : string → Q → result ()) (column_spec : string)
    (rest : list string) (column marker : string) (rising_threshold : Q) :
  MarkerColumns.marker_spec py_float column_spec
  = Ok (column, rising_threshold, marker) →
  MarkerColumns.main_markers py_float mark_xdata_call [] (Some (column_spec :: rest))
  = Raise (KeyError column).
Proof.
  intros Hspec. unfold MarkerColumns.main_markers.
  cbn [MarkerColumns.marker_columns_loop]. by rewrite Hspec.
Qed.

Lemma main_markers_on_empty_pair_data_witness :
  MarkerColumns.main_markers (λ _, Ok 0.75%Q) (λ _ _, Ok ()) []
    (Some ["button1"%string; "button2,.75,o"%string])
  = Raise (KeyError "button1").
Proof.
  apply (main_markers_on_empty_pair_data (λ _, Ok 0.75%Q) (λ _ _, Ok ())
           "button1"%string ["button2,.75,o"%string] "button1"%string "x"%string
           0.5%Q).
  reflexivity.
Defined.
